(** * Flight booking: seat store, order store, order orchestrator, request facade

    A shallow embedding of the Go sources
    - [internal/database/queries.go] and the sentinel errors of the database package,
    - [internal/temporal/activities] (seat, order and payment activities),
    - [internal/temporal/workflows/booking.go] (the per-order event loop),
    - [internal/api/handlers.go] (order status and payment submission),
    - [internal/config] (defaults),
    followed by the properties of the specification stated over them. *)

From Stdlib Require Import ZArith Floats.
From stdpp Require Import base option list strings gmap.

Open Scope Z_scope.

(** ** Go's [time] package: durations are int64 nanoseconds *)

Module GoTime.

Definition Nanosecond : Z := 1.
Definition Second : Z := 1000000000 * Nanosecond.
Definition Minute : Z := 60 * Second.
Definition Hour : Z := 60 * Minute.

Definition minDuration : Z := - 2 ^ 63.
Definition maxDuration : Z := 2 ^ 63 - 1.

(** int64 arithmetic wraps around. *)
Definition wrap64 (z : Z) : Z := (z + 2 ^ 63) mod 2 ^ 64 - 2 ^ 63.

Definition sub64 (a b : Z) : Z := wrap64 (a - b).

(** [Time.Sub] saturates at the largest and smallest duration.  Instants are
    nanoseconds since the epoch. *)
Definition Sub (t u : Z) : Z :=
  if bool_decide (maxDuration < t - u) then maxDuration
  else if bool_decide (t - u < minDuration) then minDuration
  else t - u.

(** [time.Since(t)] with the wall clock reading [now]. *)
Definition Since (now t : Z) : Z := Sub now t.

(** float64(n) for an int64 [n]: rounded to nearest, ties to even. *)
Definition float64_of_int64 (n : Z) : float :=
  if bool_decide (n < 0)
  then PrimFloat.opp (PrimFloat.of_uint63 (Uint63.of_Z (- n)))
  else PrimFloat.of_uint63 (Uint63.of_Z n).

(** int64(f) for a finite float64 [f]: the fraction is discarded. *)
Definition int64_of_float64 (f : float) : Z :=
  match Prim2SF f with
  | S754_finite s m e =>
      let mag := if bool_decide (0 <= e)
                 then Z.pos m * 2 ^ e
                 else Z.pos m / 2 ^ (- e) in
      if s then - mag else mag
  | _ => 0
  end.

(** [Duration.Seconds]:
    sec := d / Second; nsec := d % Second;
    return float64(sec) + float64(nsec)/1e9 *)
Definition Seconds (d : Z) : float :=
  let sec := Z.quot d Second in
  let nsec := Z.rem d Second in
  PrimFloat.add (float64_of_int64 sec)
                (PrimFloat.div (float64_of_int64 nsec) (float64_of_int64 1000000000)).

End GoTime.

(** ** Go errors: identity of sentinel values, wrapping with [%w] *)

Module GoErr.

(** The package-level error values.  Each is one allocation made at package
    initialisation; [errors.Is] compares against it by identity. *)
Inductive Sentinel :=
| ErrSeatNotAvailable
| ErrSeatNotExist
| ErrOrderNotFound
| sql_ErrNoRows.

#[global] Instance Sentinel_eq_dec : EqDecision Sentinel.
Proof. solve_decision. Defined.

Inductive error :=
| sentinel (s : Sentinel)
  (** a package-level value *)
| errors_New (msg : string)
  (** [errors.New(msg)] evaluated inside a function: a fresh allocation,
      identical to no package-level value whatever its text *)
| fmt_Errorf (msg : string)
  (** [fmt.Errorf] without [%w] *)
| fmt_Errorf_w (prefix : string) (cause : error)
  (** [fmt.Errorf("<prefix>: %w", cause)] *)
| driver (msg : string)
  (** an error reported by database/sql or the MySQL driver *)
| NonRetryableApplicationError (msg errType : string) (cause : error).
  (** [temporal.NewNonRetryableApplicationError(msg, errType, cause)] *)

Definition sentinelText (s : Sentinel) : string :=
  match s with
  | ErrSeatNotAvailable => "seat not available"
  | ErrSeatNotExist => "seat does not exist"
  | ErrOrderNotFound => "order not found"
  | sql_ErrNoRows => "sql: no rows in result set"
  end.

(** [err.Error()] *)
Fixpoint Error (e : error) : string :=
  match e with
  | sentinel s => sentinelText s
  | errors_New msg => msg
  | fmt_Errorf msg => msg
  | fmt_Errorf_w prefix cause => prefix +:+ ": " +:+ Error cause
  | driver msg => msg
  | NonRetryableApplicationError msg _ _ => msg
  end.

(** [errors.Is(err, target)] for a package-level [target]: walk the [Unwrap]
    chain and compare by identity. *)
Fixpoint Is (e : error) (target : Sentinel) : bool :=
  match e with
  | sentinel s => bool_decide (s = target)
  | fmt_Errorf_w _ cause => Is cause target
  | NonRetryableApplicationError _ _ cause => Is cause target
  | errors_New _ | fmt_Errorf _ | driver _ => false
  end.

(** What the workflow runtime's retry policy looks at: only an application
    error flagged non-retryable stops the retries (the policies of this
    repository list no NonRetryableErrorTypes). *)
Definition nonRetryable (e : error) : bool :=
  match e with
  | NonRetryableApplicationError _ _ _ => true
  | _ => false
  end.

End GoErr.

Import GoErr.

(** ** The relational store *)

Inductive SeatStatus := SeatAvailable | SeatReserved | SeatBooked.

#[global] Instance SeatStatus_eq_dec : EqDecision SeatStatus.
Proof. solve_decision. Defined.

(** A row of table [seats]; the nullable columns are options.  [reserved_at]
    is an instant in nanoseconds since the epoch. *)
Record SeatRow := mkSeat {
  seat_id : string;
  flight_id : string;
  seat_number : string;
  status : SeatStatus;
  reserved_by : option string;
  user_id : option string;
  reserved_at : option Z
}.

#[global] Instance SeatRow_eq_dec : EqDecision SeatRow.
Proof. solve_decision. Defined.

Inductive OrderStatus :=
| StatusCreated
| StatusSeatsReserved
| StatusPaymentPending
| StatusConfirmed
| StatusFailed
| StatusExpired
| StatusCancelled.

#[global] Instance OrderStatus_eq_dec : EqDecision OrderStatus.
Proof. solve_decision. Defined.

(** A row of table [orders]. *)
Record OrderRow := mkOrder {
  order_id : string;
  o_flight_id : string;
  o_user_id : string;
  o_status : OrderStatus;
  workflow_id : string;
  run_id : string;
  updated_at : Z
}.

Record DB := mkDB {
  seats : list SeatRow;
  orders : list OrderRow
}.

(** Which calls into database/sql fail (lost connection, deadlock, ...), one
    field per call site of a store method. *)
Record Faults := mkFaults {
  begin_fails : bool;
  order_query_fails : bool;
  release_exec_fails : bool;
  lock_query_fails : bool;
  reserve_exec_fails : bool;
  commit_fails : bool;
  exec_fails : bool
}.

Definition noFaults : Faults := mkFaults false false false false false false false.

(** What a store method runs in: the faults, the Go wall clock read by
    [time.Since], and the database server's [NOW()]. *)
Record Env := mkEnv {
  faults : Faults;
  goNow : Z;
  sqlNow : Z
}.

Definition badConn : error := driver "driver: bad connection".

(** How a call of a store method ends. *)
Inductive Outcome :=
| Returned (err : option error)
| Panicked (msg : string).

(** *** Transactions

    A transaction body works on its own view of the tables.  It either
    finishes with a value, or stops with an error or a panic; in both cases
    the view it reached is kept here, and [inTx] below decides what becomes
    of it. *)

Inductive TxResult (A : Type) :=
| TxOk (a : A) (view : DB)
| TxFail (e : error) (view : DB)
| TxPanic (msg : string) (view : DB).
Arguments TxOk {A} a view.
Arguments TxFail {A} e view.
Arguments TxPanic {A} msg view.

Definition Tx (A : Type) : Type := DB -> TxResult A.

Definition tx_ret {A} (a : A) : Tx A := fun v => TxOk a v.

Definition tx_bind {A B} (m : Tx A) (k : A -> Tx B) : Tx B :=
  fun v => match m v with
           | TxOk a v' => k a v'
           | TxFail e v' => TxFail e v'
           | TxPanic msg v' => TxPanic msg v'
           end.

Definition tx_fail {A} (e : error) : Tx A := fun v => TxFail e v.
Definition tx_panic {A} (msg : string) : Tx A := fun v => TxPanic msg v.
Definition tx_get : Tx DB := fun v => TxOk v v.
Definition tx_put (v' : DB) : Tx unit := fun _ => TxOk tt v'.

Notation "'do' x <- m ; k" := (tx_bind m (fun x => k))
  (at level 10, x name, m at level 100, k at level 200).
Notation "'run' m ; k" := (tx_bind m (fun _ => k))
  (at level 10, m at level 100, k at level 200).

(** [tx, err := db.Begin(); ...; defer tx.Rollback(); <body>; return tx.Commit()]:
    the view reaches the tables only through a successful Commit; every other
    way out runs the deferred Rollback. *)
Definition inTx (env : Env) (body : Tx unit) (db : DB) : Outcome * DB :=
  if begin_fails (faults env)
  then (Returned (Some (fmt_Errorf_w "failed to begin transaction" badConn)), db)
  else match body db with
       | TxOk _ view =>
           if commit_fails (faults env)
           then (Returned (Some badConn), db)
           else (Returned None, view)
       | TxFail e _ => (Returned (Some e), db)
       | TxPanic msg _ => (Panicked msg, db)
       end.

(** *** SQL statements over the seat table

    A table is the list of its rows.  Column comparison is equality of
    strings, a SELECT returns the matching rows in table order, and an UPDATE
    rewrites the matching rows in place.  [rows.Scan] into the variables of
    these methods does not fail on rows of this schema and has no fault of
    its own. *)

(** [WHERE flight_id = ? AND seat_number IN (...)] *)
Definition inFlightSeats (flightID : string) (nums : list string) (r : SeatRow) : Prop :=
  flight_id r = flightID /\ seat_number r ∈ nums.

#[global] Instance inFlightSeats_dec flightID nums r : Decision (inFlightSeats flightID nums r).
Proof. unfold inFlightSeats. apply _. Defined.

(** [WHERE reserved_by = ?] *)
Definition ownedBy (orderID : string) (r : SeatRow) : Prop :=
  reserved_by r = Some orderID.

#[global] Instance ownedBy_dec orderID r : Decision (ownedBy orderID r).
Proof. unfold ownedBy. apply _. Defined.

(** [WHERE reserved_by = ? AND seat_number IN (...)] *)
Definition ownedAmong (orderID : string) (nums : list string) (r : SeatRow) : Prop :=
  reserved_by r = Some orderID /\ seat_number r ∈ nums.

#[global] Instance ownedAmong_dec orderID nums r : Decision (ownedAmong orderID nums r).
Proof. unfold ownedAmong. apply _. Defined.

(** [SET status = 'RESERVED', reserved_by = ?, user_id = ?, reserved_at = NOW()] *)
Definition setReserved (orderID userID : string) (at_ : Z) (r : SeatRow) : SeatRow :=
  mkSeat (seat_id r) (flight_id r) (seat_number r)
         SeatReserved (Some orderID) (Some userID) (Some at_).

(** [SET status = 'AVAILABLE', reserved_by = NULL, user_id = NULL, reserved_at = NULL] *)
Definition setAvailable (r : SeatRow) : SeatRow :=
  mkSeat (seat_id r) (flight_id r) (seat_number r) SeatAvailable None None None.

(** [SET status = 'BOOKED'] *)
Definition setBooked (r : SeatRow) : SeatRow :=
  mkSeat (seat_id r) (flight_id r) (seat_number r)
         SeatBooked (reserved_by r) (user_id r) (reserved_at r).

(** [UPDATE seats SET ... WHERE P]: rows keep their place. *)
Definition sqlUpdate (P : SeatRow -> Prop) `{!forall r, Decision (P r)}
    (f : SeatRow -> SeatRow) (rows : list SeatRow) : list SeatRow :=
  (fun r => if decide (P r) then f r else r) <$> rows.

(** [SELECT ... WHERE P]: the rows come in table order. *)
Definition sqlSelect (P : SeatRow -> Prop) `{!forall r, Decision (P r)}
    (rows : list SeatRow) : list SeatRow :=
  filter P rows.

Definition withSeats (v : DB) (rows : list SeatRow) : DB := mkDB rows (orders v).

(** *** Seat store *)

(** The staleness cutoff written into both row loops: [15*time.Minute]. *)
Definition staleAfter : Z := 15 * GoTime.Minute.

(** The test both row loops make on a locked row:
      if status == SeatAvailable: continue
      else if status == SeatReserved && reservedAt.Valid:
         if time.Since(reservedAt.Time) > 15*time.Minute: continue
      return <not available> *)
Definition takeable (now : Z) (r : SeatRow) : bool :=
  match status r, reserved_at r with
  | SeatAvailable, _ => true
  | SeatReserved, Some t => bool_decide (staleAfter < GoTime.Since now t)
  | _, _ => false
  end.

(** [foundSeats[seat]] on a [map[string]bool]: false for an absent key. *)
Definition found (foundSeats : gmap string bool) (seat : string) : bool :=
  default false (foundSeats !! seat).

(** [for rows.Next() { ... }]: record the seat number, stop at the first row
    that is not takeable. *)
Fixpoint scanLocked (now : Z) (notAvailable : string -> error)
    (rows : list SeatRow) (foundSeats : gmap string bool) : error + gmap string bool :=
  match rows with
  | [] => inr foundSeats
  | r :: rest =>
      let foundSeats := <[seat_number r := true]> foundSeats in
      if takeable now r
      then scanLocked now notAvailable rest foundSeats
      else inl (notAvailable (seat_number r))
  end.

(** [for _, seat := range seats { if !foundSeats[seat] { return ... } }] *)
Fixpoint verifyExist (notExist : string -> error)
    (requested : list string) (foundSeats : gmap string bool) : option error :=
  match requested with
  | [] => None
  | seat :: rest =>
      if found foundSeats seat
      then verifyExist notExist rest foundSeats
      else Some (notExist seat)
  end.

(** The locking select, the row loop, the existence loop and the update, as
    both ReserveSeats and UpdateSeats write them out. *)
Definition lockCheckReserve (env : Env)
    (lockMsg reserveMsg : string) (notAvailable notExist : string -> error)
    (flightID : string) (nums : list string) (orderID userID : string) : Tx unit :=
  do v <- tx_get;
  if lock_query_fails (faults env) then tx_fail (fmt_Errorf_w lockMsg badConn) else
  let rows := sqlSelect (inFlightSeats flightID nums) (seats v) in
  match scanLocked (goNow env) notAvailable rows ∅ with
  | inl e => tx_fail e
  | inr foundSeats =>
      match verifyExist notExist nums foundSeats with
      | Some e => tx_fail e
      | None =>
          if reserve_exec_fails (faults env) then tx_fail (fmt_Errorf_w reserveMsg badConn) else
          tx_put (withSeats v
                   (sqlUpdate (inFlightSeats flightID nums)
                              (setReserved orderID userID (sqlNow env)) (seats v)))
      end
  end.

Definition seatNotAvailable (seatNumber : string) : error :=
  fmt_Errorf_w ("seat " +:+ seatNumber) (sentinel ErrSeatNotAvailable).

Definition seatNotExist (seat : string) : error :=
  fmt_Errorf_w ("seat " +:+ seat) (sentinel ErrSeatNotExist).

(** [func (db *DB) ReserveSeats(flightID string, seats []string, orderID, userID string) error] *)
Definition ReserveSeats (env : Env) (flightID : string) (nums : list string)
    (orderID userID : string) (db : DB) : Outcome * DB :=
  inTx env
    (match nums with
     | [] => (* placeholders[:len(placeholders)-1] on the empty string *)
         tx_panic "runtime error: slice bounds out of range [:-1]"
     | _ =>
         lockCheckReserve env "failed to lock seats" "failed to reserve seats"
           seatNotAvailable seatNotExist flightID nums orderID userID
     end) db.

(** [func (db *DB) ReleaseSeats(orderID string) error]: one statement, no
    explicit transaction. *)
Definition ReleaseSeats (env : Env) (orderID : string) (db : DB) : Outcome * DB :=
  if exec_fails (faults env)
  then (Returned (Some (fmt_Errorf_w "failed to release seats" badConn)), db)
  else (Returned None, withSeats db (sqlUpdate (ownedBy orderID) setAvailable (seats db))).

(** [SELECT flight_id, user_id FROM orders WHERE order_id = ?] through
    [QueryRow(...).Scan]. *)
Definition orderInfo (env : Env) (orderID : string) : Tx (string * string) :=
  do v <- tx_get;
  if order_query_fails (faults env) then tx_fail (fmt_Errorf_w "failed to get order info" badConn) else
  match filter (fun o => order_id o = orderID) (orders v) with
  | o :: _ => tx_ret (o_flight_id o, o_user_id o)
  | [] => tx_fail (fmt_Errorf_w "failed to get order info" (sentinel sql_ErrNoRows))
  end.

Definition releaseOld (env : Env) (orderID : string) (oldSeats : list string) : Tx unit :=
  match oldSeats with
  | [] => tx_ret tt
  | _ =>
      do v <- tx_get;
      if release_exec_fails (faults env)
      then tx_fail (fmt_Errorf_w "failed to release old seats" badConn)
      else tx_put (withSeats v (sqlUpdate (ownedAmong orderID oldSeats) setAvailable (seats v)))
  end.

Definition reserveNew (env : Env) (flightID : string) (newSeats : list string)
    (orderID userID : string) : Tx unit :=
  match newSeats with
  | [] => tx_ret tt
  | _ =>
      lockCheckReserve env "failed to lock new seats" "failed to reserve new seats"
        (fun seatNumber => fmt_Errorf ("seat " +:+ seatNumber +:+ " is not available"))
        (fun seat => fmt_Errorf ("seat " +:+ seat +:+ " does not exist"))
        flightID newSeats orderID userID
  end.

Definition UpdateSeatsBody (env : Env) (orderID : string) (oldSeats newSeats : list string) : Tx unit :=
  do info <- orderInfo env orderID;
  run releaseOld env orderID oldSeats;
  reserveNew env info.1 newSeats orderID info.2.

(** [func (db *DB) UpdateSeats(orderID string, oldSeats, newSeats []string) error] *)
Definition UpdateSeats (env : Env) (orderID : string) (oldSeats newSeats : list string)
    (db : DB) : Outcome * DB :=
  inTx env (UpdateSeatsBody env orderID oldSeats newSeats) db.

(** [func (db *DB) ConfirmSeats(orderID string) error] *)
Definition ConfirmSeats (env : Env) (orderID : string) (db : DB) : Outcome * DB :=
  if exec_fails (faults env)
  then (Returned (Some (fmt_Errorf_w "failed to confirm seats" badConn)), db)
  else (Returned None, withSeats db (sqlUpdate (ownedBy orderID) setBooked (seats db))).

(** The rows [GetOrderSeats] reads: [WHERE reserved_by = ?]. *)
Definition ownedRows (orderID : string) (db : DB) : list SeatRow :=
  sqlSelect (ownedBy orderID) (seats db).

(** The order row that [QueryRow(...).Scan] reads. *)
Definition orderRow (orderID : string) (db : DB) : option OrderRow :=
  head (filter (fun o => order_id o = orderID) (orders db)).

(** The two UPDATE statements of UpdateSeats, one after the other. *)
Definition swapped (env : Env) (orderID : string) (oldSeats newSeats : list string)
    (flightID userID : string) (rows : list SeatRow) : list SeatRow :=
  sqlUpdate (inFlightSeats flightID newSeats) (setReserved orderID userID (sqlNow env))
    (sqlUpdate (ownedAmong orderID oldSeats) setAvailable rows).

(** The seats an order holds, as (flight, seat number) pairs. *)
Definition heldSeats (orderID : string) (db : DB) : list (string * string) :=
  (fun r => (flight_id r, seat_number r)) <$> ownedRows orderID db.

(** *** Order store *)

(** [func (db *DB) GetOrder(orderID string)]: the order row, or an error. *)
Definition GetOrder (env : Env) (orderID : string) (db : DB) : error + OrderRow :=
  if exec_fails (faults env) then inl (fmt_Errorf_w "failed to get order" badConn) else
  match filter (fun o => order_id o = orderID) (orders db) with
  | o :: _ => inr o
  | [] => inl (errors_New "order not found")
  end.

Definition setStatus (st : OrderStatus) (at_ : Z) (o : OrderRow) : OrderRow :=
  mkOrder (order_id o) (o_flight_id o) (o_user_id o) st (workflow_id o) (run_id o) at_.

(** [func (db *DB) UpdateOrderStatus(orderID, status string) error]; the
    affected rows are the rows the WHERE clause matches. *)
Definition UpdateOrderStatus (env : Env) (orderID : string) (st : OrderStatus)
    (db : DB) : Outcome * DB :=
  if exec_fails (faults env)
  then (Returned (Some (fmt_Errorf_w "failed to update order status" badConn)), db)
  else
    let db' := mkDB (seats db)
                 ((fun o => if decide (order_id o = orderID)
                            then setStatus st (sqlNow env) o else o) <$> orders db) in
    let rowsAffected := length (filter (fun o => order_id o = orderID) (orders db)) in
    if decide (rowsAffected = 0%nat)
    then (Returned (Some (errors_New "order not found")), db')
    else (Returned None, db').

(** ** Activities *)

(** [if err != nil { return fmt.Errorf("<msg>: %w", err) }; return nil] *)
Definition wrapErr (msg : string) (r : Outcome * DB) : Outcome * DB :=
  match r with
  | (Returned (Some err), db) => (Returned (Some (fmt_Errorf_w msg err)), db)
  | _ => r
  end.

Module SeatActivities.

Definition ReserveSeats (env : Env) (flightID : string) (nums : list string)
    (orderID userID : string) (db : DB) : Outcome * DB :=
  wrapErr "failed to reserve seats" (ReserveSeats env flightID nums orderID userID db).

Definition ReleaseSeats (env : Env) (orderID : string) (db : DB) : Outcome * DB :=
  wrapErr "failed to release seats" (ReleaseSeats env orderID db).

Definition UpdateSeats (env : Env) (orderID : string) (oldSeats newSeats : list string)
    (db : DB) : Outcome * DB :=
  wrapErr "failed to update seats" (UpdateSeats env orderID oldSeats newSeats db).

Definition ConfirmSeats (env : Env) (orderID : string) (db : DB) : Outcome * DB :=
  wrapErr "failed to confirm seats" (ConfirmSeats env orderID db).

End SeatActivities.

Module OrderActivities.

(** if err != nil {
      if errors.Is(err, database.ErrOrderNotFound) {
        return temporal.NewNonRetryableApplicationError(err.Error(), "OrderNotFound", err) }
      return fmt.Errorf("failed to update order status: %w", err) } *)
Definition UpdateOrderStatus (env : Env) (orderID : string) (st : OrderStatus)
    (db : DB) : Outcome * DB :=
  match UpdateOrderStatus env orderID st db with
  | (Returned (Some err), db') =>
      if Is err ErrOrderNotFound
      then (Returned (Some (NonRetryableApplicationError (Error err) "OrderNotFound" err)), db')
      else (Returned (Some (fmt_Errorf_w "failed to update order status" err)), db')
  | r => r
  end.

End OrderActivities.

Record PaymentResult := mkPaymentResult {
  Success : bool;
  TransactionID : string;
  ErrorMessage : string
}.

Module PaymentActivities.

Definition isDigit (c : Ascii.ascii) : bool :=
  bool_decide (48 <= Z.of_nat (Ascii.nat_of_ascii c) <= 57).

(** [regexp.MatchString(`^\d{5}$`, paymentCode)] *)
Definition fiveDigits (paymentCode : string) : bool :=
  bool_decide (String.length paymentCode = 5%nat)
  && forallb isDigit (String.list_ascii_of_string paymentCode).

(** [ValidatePayment]; the random draw against the 15%% failure rate and the
    fresh transaction id are inputs. *)
Definition ValidatePayment (gatewayFails : bool) (transactionID : string)
    (paymentCode orderID : string) : PaymentResult * option error :=
  if negb (fiveDigits paymentCode)
  then (mkPaymentResult false "" "invalid payment code format (must be 5 digits)", None)
  else if gatewayFails
  then (mkPaymentResult false "" "payment gateway error (simulated)",
        Some (errors_New "payment gateway error"))
  else (mkPaymentResult true transactionID "", None).

End PaymentActivities.

(** ** The workflow runtime's activity retries

    [workflow.ExecuteActivity(ctx, activity, args...).Get(ctx, nil)] under a
    RetryPolicy with MaximumAttempts >= 1: the activity is attempted again
    after a failure until it succeeds, fails with a non-retryable error, or
    the attempts are used up.  A panic in an activity is reported as a failure
    like any other.  The result carries the number of attempts made. *)

Fixpoint attempts (more : nat) (activity : DB -> Outcome * DB) (db : DB)
    : Outcome * DB * nat :=
  let '(o, db') := activity db in
  match more with
  | O => (o, db', 1%nat)
  | S more' =>
      let again := let '(o', db'', n) := attempts more' activity db' in (o', db'', S n) in
      match o with
      | Returned None => (o, db', 1%nat)
      | Returned (Some e) => if nonRetryable e then (o, db', 1%nat) else again
      | Panicked _ => again
      end
  end.

Definition ExecuteActivity (maximumAttempts : nat) (activity : DB -> Outcome * DB) (db : DB)
    : Outcome * DB * nat :=
  attempts (maximumAttempts - 1) activity db.

(** [MaximumAttempts: 5] of the booking workflow's activity options. *)
Definition seatMaximumAttempts : nat := 5.

(** ** Configuration *)

Record Config := mkConfig {
  ReservationTimeout : Z;
  PaymentTimeout : Z;
  MaxPaymentRetries : Z
}.

(** [Load] with no environment variable set. *)
Definition defaultConfig : Config :=
  mkConfig (15 * GoTime.Minute) (10 * GoTime.Second) 3.

(** ** The booking workflow *)

Record BookingInput := mkInput {
  in_OrderID : string;
  in_FlightID : string;
  in_UserID : string;
  in_Seats : list string
}.

Record BookingState := mkState {
  OrderID : string;
  FlightID : string;
  UserID : string;
  Seats : list string;
  Status : OrderStatus;
  ReservationStartAt : Z;
  PaymentAttempts : Z
}.

Definition withStatus (st : OrderStatus) (b : BookingState) : BookingState :=
  mkState (OrderID b) (FlightID b) (UserID b) (Seats b) st
          (ReservationStartAt b) (PaymentAttempts b).

Definition withSeatsAt (newSeats : list string) (now : Z) (b : BookingState) : BookingState :=
  mkState (OrderID b) (FlightID b) (UserID b) newSeats (Status b) now (PaymentAttempts b).

(** What the workflow asks of the runtime, in program order. *)
Inductive Effect :=
| ActReserveSeats (flightID : string) (nums : list string) (orderID userID : string)
| ActUpdateSeats (orderID : string) (newSeats : list string)
| ActReleaseSeats (orderID : string)
| ActConfirmSeats (orderID : string)
| ActUpdateOrderStatus (orderID : string) (st : OrderStatus)
| ActSendConfirmation (orderID : string)
| ChildPaymentValidation (workflowID paymentCode orderID : string)
| NewTimer (d : Z)
| CancelTimer.

(** One turn of the selector: the source that was ready, together with what
    the runtime answers to the handler's calls ([workflow.Now], the errors of
    the activities and of the child workflow it awaits). *)
Inductive Turn :=
| RecvUpdateSeats (newSeats : list string) (updateErr : option error) (now : Z)
| RecvSubmitPayment (paymentCode : string) (childErr : option error)
                    (paymentResult : PaymentResult) (releaseErr : option error)
| RecvCancelOrder (releaseErr : option error)
| TimerReady (timerErr : option error) (releaseErr : option error).

(** The variables the handlers close over. *)
Record Loop := mkLoop {
  state : BookingState;
  workflowErr : option error;
  effects : list Effect
}.

Definition emit (es : list Effect) (l : Loop) : Loop :=
  mkLoop (state l) (workflowErr l) (effects l ++ es).

Definition setState (f : BookingState -> BookingState) (l : Loop) : Loop :=
  mkLoop (f (state l)) (workflowErr l) (effects l).

Definition setWorkflowErr (e : error) (l : Loop) : Loop :=
  mkLoop (state l) (Some e) (effects l).

(** releaseErr := ExecuteActivity(ReleaseSeats, state.OrderID).Get(ctx, nil)
    if releaseErr != nil { workflowErr = fmt.Errorf("failed to release seats: %w", releaseErr); return }
    ExecuteActivity(UpdateOrderStatus, state.OrderID, <st>).Get(ctx, nil) *)
Definition releaseThenPush (st : OrderStatus) (releaseErr : option error) (l : Loop) : Loop :=
  let l := emit [ActReleaseSeats (OrderID (state l))] l in
  match releaseErr with
  | Some e => setWorkflowErr (fmt_Errorf_w "failed to release seats" e) l
  | None => emit [ActUpdateOrderStatus (OrderID (state l)) st] l
  end.

Definition onUpdateSeats (cfg : Config) (newSeats : list string) (updateErr : option error)
    (now : Z) (l : Loop) : Loop :=
  let l := emit [ActUpdateSeats (OrderID (state l)) newSeats] l in
  match updateErr with
  | Some _ => l
  | None =>
      emit [CancelTimer; NewTimer (ReservationTimeout cfg)]
           (setState (withSeatsAt newSeats now) l)
  end.

Definition onSubmitPayment (runID paymentCode : string) (childErr : option error)
    (paymentResult : PaymentResult) (releaseErr : option error) (l : Loop) : Loop :=
  let orderID := OrderID (state l) in
  let l := setState (withStatus StatusPaymentPending) l in
  let l := emit [ActUpdateOrderStatus orderID StatusPaymentPending;
                 ChildPaymentValidation (orderID +:+ "-payment-" +:+ runID) paymentCode orderID] l in
  if bool_decide (childErr = None) && Success paymentResult
  then emit [ActConfirmSeats orderID;
             ActUpdateOrderStatus orderID StatusConfirmed;
             ActSendConfirmation orderID]
            (setState (withStatus StatusConfirmed) l)
  else releaseThenPush StatusFailed releaseErr (setState (withStatus StatusFailed) l).

Definition onCancelOrder (releaseErr : option error) (l : Loop) : Loop :=
  releaseThenPush StatusCancelled releaseErr (setState (withStatus StatusCancelled) l).

Definition onTimer (timerErr releaseErr : option error) (l : Loop) : Loop :=
  match timerErr with
  | Some _ => l
  | None => releaseThenPush StatusExpired releaseErr (setState (withStatus StatusExpired) l)
  end.

(** [selector.Select(ctx)]: exactly one handler runs. *)
Definition handle (cfg : Config) (runID : string) (t : Turn) (l : Loop) : Loop :=
  match t with
  | RecvUpdateSeats newSeats updateErr now => onUpdateSeats cfg newSeats updateErr now l
  | RecvSubmitPayment code childErr res releaseErr =>
      onSubmitPayment runID code childErr res releaseErr l
  | RecvCancelOrder releaseErr => onCancelOrder releaseErr l
  | TimerReady timerErr releaseErr => onTimer timerErr releaseErr l
  end.

Definition terminal (st : OrderStatus) : bool :=
  match st with
  | StatusConfirmed | StatusFailed | StatusExpired | StatusCancelled => true
  | _ => false
  end.

(** The [if ... { break }] after [selector.Select]. *)
Definition exitCondition (l : Loop) : bool :=
  terminal (Status (state l)) || bool_decide (workflowErr l <> None).

(** [for { ...; selector.Select(ctx); if <exit> { break } }] over the turns the
    runtime delivers; [false] when the loop is still waiting in Select after
    the last of them. *)
Fixpoint eventLoop (cfg : Config) (runID : string) (turns : list Turn) (l : Loop)
    : Loop * bool :=
  match turns with
  | [] => (l, false)
  | t :: rest =>
      let l' := handle cfg runID t l in
      if exitCondition l' then (l', true) else eventLoop cfg runID rest l'
  end.

Inductive Completion :=
| Waiting
| Completed (err : option error).

Record Run := mkRun {
  result : BookingState;
  completion : Completion;
  trace : list Effect
}.

(** [func BookingWorkflow(ctx, input) (BookingResult, error)].  [now0] and
    [now1] are the two readings of [workflow.Now] before the loop, [reserveErr]
    is what the initial ReserveSeats activity ends with. *)
Definition BookingWorkflow (cfg : Config) (runID : string) (input : BookingInput)
    (now0 : Z) (reserveErr : option error) (now1 : Z) (turns : list Turn) : Run :=
  let state0 := mkState (in_OrderID input) (in_FlightID input) (in_UserID input)
                        [] StatusCreated now0 0 in
  let reserve := ActReserveSeats (in_FlightID input) (in_Seats input)
                                 (in_OrderID input) (in_UserID input) in
  match reserveErr with
  | Some err => mkRun (withStatus StatusFailed state0) (Completed (Some err)) [reserve]
  | None =>
      let state1 := mkState (in_OrderID input) (in_FlightID input) (in_UserID input)
                            (in_Seats input) StatusSeatsReserved now1 0 in
      let l := mkLoop state1 None
                 [reserve;
                  ActUpdateOrderStatus (in_OrderID input) StatusSeatsReserved;
                  NewTimer (ReservationTimeout cfg)] in
      match eventLoop cfg runID turns l with
      | (l', true) => mkRun (state l') (Completed (workflowErr l')) (effects l')
      | (l', false) => mkRun (state l') Waiting (effects l')
      end
  end.

(** ** The request facade *)

Record OrderStatusResponse := mkStatusResponse {
  r_OrderID : string;
  r_FlightID : string;
  r_UserID : string;
  r_Seats : list string;
  r_Status : OrderStatus;
  TimeRemaining : Z;
  ReservedAt : option Z
}.

Inductive Reply :=
| http_Error (msg : string) (code : Z)
| json_Status (code : Z) (r : OrderStatusResponse)
| json_Message (code : Z) (msg : string).

Definition statusCode (r : Reply) : Z :=
  match r with
  | http_Error _ code | json_Status code _ | json_Message code _ => code
  end.

Inductive Signal :=
| SignalUpdateSeats (newSeats : list string)
| SignalSubmitPayment (paymentCode : string)
| SignalCancelOrder.

(** A call of [TemporalClient.SignalWorkflow(ctx, workflowID, runID, name, arg)]. *)
Record Sent := mkSent {
  to_workflow : string;
  to_run : string;
  signal : Signal
}.

(** What [TemporalClient.QueryWorkflow] and then [resp.Get(&state)] give. *)
Inductive QueryAnswer :=
| QueryError (err : error)
| QueryUndecodable (err : error)
| QueryState (st : BookingState).

(** [func (h *Handler) GetOrderStatus(w, r)] *)
Definition GetOrderStatus (env : Env) (cfg : Config) (answer : QueryAnswer)
    (orderID : string) (db : DB) : Reply :=
  match GetOrder env orderID db with
  | inl err => http_Error ("order not found: " +:+ Error err) 404
  | inr order =>
      match answer with
      | QueryError _ =>
          json_Status 200
            (mkStatusResponse (order_id order) (o_flight_id order) (o_user_id order)
               (seat_number <$> ownedRows orderID db) (o_status order) 0 None)
      | QueryUndecodable err =>
          http_Error ("failed to get workflow state: " +:+ Error err) 500
      | QueryState st =>
          let elapsed := GoTime.Since (goNow env) (ReservationStartAt st) in
          let remaining := GoTime.sub64 (ReservationTimeout cfg) elapsed in
          let remaining := if bool_decide (remaining < 0) then 0 else remaining in
          let timeRemaining := GoTime.int64_of_float64 (GoTime.Seconds remaining) in
          json_Status 200
            (mkStatusResponse (OrderID st) (FlightID st) (UserID st) (Seats st) (Status st)
               timeRemaining (Some (ReservationStartAt st)))
      end
  end.

(** [func (h *Handler) SubmitPayment(w, r)].  [body] is what decoding the
    request body gives: an error, or the paymentCode field.  [signalErr] is
    what SignalWorkflow returns if it is called. *)
Definition SubmitPayment (env : Env) (body : error + string) (signalErr : option error)
    (orderID : string) (db : DB) : Reply * list Sent :=
  match body with
  | inl err => (http_Error ("invalid request body: " +:+ Error err) 400, [])
  | inr paymentCode =>
      if bool_decide (String.length paymentCode <> 5%nat)
      then (http_Error "payment code must be 5 digits" 400, [])
      else match GetOrder env orderID db with
           | inl err => (http_Error ("order not found: " +:+ Error err) 404, [])
           | inr order =>
               let sent := [mkSent (workflow_id order) (run_id order)
                                   (SignalSubmitPayment paymentCode)] in
               match signalErr with
               | Some err => (http_Error ("failed to send signal: " +:+ Error err) 500, sent)
               | None => (json_Message 200 "payment submitted", sent)
               end
           end
  end.

(** ** The rest of the order store, and the administrative statements

    The schema of [scripts/init.sql] matters here: [order_id] is the primary
    key of [orders], and [seats.reserved_by] references it ON DELETE SET
    NULL.  (A reservation for an order id that has no row violates that
    reference; in the seat store above it shows as a failing Exec.) *)

Definition duplicateEntry (id : string) : error :=
  driver ("Error 1062 (23000): Duplicate entry '" +:+ id +:+ "' for key 'orders.PRIMARY'").

(** [func (db *DB) CreateOrder(order *models.Order) error]: the INSERT names
    every column but the two timestamps, which default to the server's
    clock. *)
Definition CreateOrder (env : Env) (order : OrderRow) (db : DB) : Outcome * DB :=
  if exec_fails (faults env)
  then (Returned (Some (fmt_Errorf_w "failed to create order" badConn)), db)
  else if bool_decide (order_id order ∈ order_id <$> orders db)
  then (Returned (Some (fmt_Errorf_w "failed to create order"
                          (duplicateEntry (order_id order)))), db)
  else (Returned None,
        mkDB (seats db)
             (orders db ++ [mkOrder (order_id order) (o_flight_id order) (o_user_id order)
                                    (o_status order) (workflow_id order) (run_id order)
                                    (sqlNow env)])).

(** [ON DELETE SET NULL] on [seats.reserved_by]. *)
Definition orphaned (gone : list string) (r : SeatRow) : Prop :=
  exists id, reserved_by r = Some id /\ id ∈ gone.

#[global] Instance orphaned_dec gone r : Decision (orphaned gone r).
Proof.
  unfold orphaned. destruct (reserved_by r) as [id|].
  - destruct (decide (id ∈ gone)) as [Hin|Hout].
    + left. by exists id.
    + right. intros (id' & Heq & Hin). by simplify_eq.
  - right. by intros (id' & Heq & _).
Defined.



(** [WHERE flight_id = ?] *)
Definition inFlight (flightID : string) (r : SeatRow) : Prop := flight_id r = flightID.

#[global] Instance inFlight_dec flightID r : Decision (inFlight flightID r).
Proof. unfold inFlight. apply _. Defined.

(** [func (db *DB) ResetFlightSeats(flightID string) error] *)
Definition ResetFlightSeats (env : Env) (flightID : string) (db : DB) : Outcome * DB :=
  if exec_fails (faults env)
  then (Returned (Some (fmt_Errorf_w "failed to reset seats" badConn)), db)
  else (Returned None, withSeats db (sqlUpdate (inFlight flightID) setAvailable (seats db))).

(** ** The payment child workflow *)

(** [MaximumAttempts: 3] of the child's activity options. *)
Definition paymentMaximumAttempts : nat := 3.

(** ValidatePayment under the retry policy of the child.  [draws n] is what
    attempt [n] draws: whether the simulated gateway fails, and the fresh
    transaction id.  An attempt is repeated only when it returns an error;
    the result is the last attempt's, with the number of attempts made. *)
Fixpoint validateAttempts (more attempt : nat) (draws : nat -> bool * string)
    (paymentCode orderID : string) : PaymentResult * option error * nat :=
  let '(res, err) :=
    PaymentActivities.ValidatePayment (draws attempt).1 (draws attempt).2 paymentCode orderID in
  match more, err with
  | S more', Some _ =>
      let '(res', err', n) := validateAttempts more' (S attempt) draws paymentCode orderID in
      (res', err', S n)
  | _, _ => (res, err, 1%nat)
  end.

(** [func PaymentValidationWorkflow(ctx, paymentCode, orderID)], from what
    [ExecuteActivity(...).Get(ctx, &result)] gives: the activity's result and
    error after the retries. *)
Definition PaymentValidationWorkflow (result : PaymentResult) (err : option error)
    : PaymentResult * option error :=
  match err with
  | Some e =>
      (mkPaymentResult false "" ("payment validation failed: " +:+ Error e), Some e)
  | None =>
      if negb (Success result)
      then (result, Some (fmt_Errorf ("payment validation failed: " +:+ ErrorMessage result)))
      else (result, None)
  end.

(** The child as the parent runs it for a submitPayment signal: what the
    child returns is what the payment handler of the loop awaits. *)
Definition paymentTurn (draws : nat -> bool * string) (paymentCode orderID : string)
    (releaseErr : option error) : Turn :=
  let '(res, err, _) :=
    validateAttempts (paymentMaximumAttempts - 1) 0 draws paymentCode orderID in
  let '(childRes, childErr) := PaymentValidationWorkflow res err in
  RecvSubmitPayment paymentCode childErr childRes releaseErr.

(** ** The other handlers of the facade *)

Record CreateOrderRequest := mkCreateRequest {
  req_UserID : string;
  req_Seats : list string
}.

Record CreateOrderResponse := mkCreateResponse {
  c_OrderID : string;
  c_FlightID : string;
  c_UserID : string;
  c_Seats : list string;
  c_Status : OrderStatus;
  c_WorkflowID : string
}.

Inductive CreateReply :=
| create_Error (msg : string) (code : Z)
| create_Created (resp : CreateOrderResponse).

(** A call of [TemporalClient.ExecuteWorkflow] with [ID: orderID]. *)
Record Started := mkStarted {
  started_ID : string;
  started_input : BookingInput
}.

Module Handler.

(** [func (h *Handler) CreateOrder(w, r)].  [body] is what decoding the
    request gives, [orderID] the fresh uuid, [start] what ExecuteWorkflow
    returns if it is called: an error, or the workflow id and run id of the
    started run. *)
Definition CreateOrder (env : Env) (body : error + CreateOrderRequest) (orderID : string)
    (start : error + string * string) (flightID : string) (db : DB)
    : CreateReply * list Started * DB :=
  match body with
  | inl err => (create_Error ("invalid request body: " +:+ Error err) 400, [], db)
  | inr req =>
      if bool_decide (req_UserID req = "") || bool_decide (length (req_Seats req) = 0%nat)
      then (create_Error "userId and seats required" 400, [], db)
      else
        let input := mkInput orderID flightID (req_UserID req) (req_Seats req) in
        let started := [mkStarted orderID input] in
        match start with
        | inl err =>
            (create_Error ("failed to start workflow: " +:+ Error err) 500, started, db)
        | inr (workflowID, runID) =>
            let order := mkOrder orderID flightID (req_UserID req) StatusCreated
                                 workflowID runID 0 in
            match CreateOrder env order db with
            | (Returned None, db') =>
                (create_Created
                   (mkCreateResponse orderID flightID (req_UserID req) (req_Seats req)
                                     StatusCreated workflowID),
                 started, db')
            | (Returned (Some err), db') =>
                (create_Error ("failed to create order: " +:+ Error err) 500, started, db')
            | (Panicked msg, db') => (create_Error msg 500, started, db')
            end
        end
  end.

(** [func (h *Handler) UpdateSeats(w, r)] *)
Definition UpdateSeats (env : Env) (body : error + list string) (signalErr : option error)
    (orderID : string) (db : DB) : Reply * list Sent :=
  match body with
  | inl err => (http_Error ("invalid request body: " +:+ Error err) 400, [])
  | inr newSeats =>
      if bool_decide (length newSeats = 0%nat)
      then (http_Error "seats required" 400, [])
      else match GetOrder env orderID db with
           | inl err => (http_Error ("order not found: " +:+ Error err) 404, [])
           | inr order =>
               let sent := [mkSent (workflow_id order) (run_id order)
                                   (SignalUpdateSeats newSeats)] in
               match signalErr with
               | Some err => (http_Error ("failed to send signal: " +:+ Error err) 500, sent)
               | None => (json_Message 200 "seats updated", sent)
               end
           end
  end.

(** [func (h *Handler) CancelOrder(w, r)] *)
Definition CancelOrder (env : Env) (signalErr : option error) (orderID : string) (db : DB)
    : Reply * list Sent :=
  match GetOrder env orderID db with
  | inl err => (http_Error ("order not found: " +:+ Error err) 404, [])
  | inr order =>
      let sent := [mkSent (workflow_id order) (run_id order) SignalCancelOrder] in
      match signalErr with
      | Some err => (http_Error ("failed to send signal: " +:+ Error err) 500, sent)
      | None => (json_Message 200 "order cancelled", sent)
      end
  end.


End Handler.

(** The invariants of a seat row that the schema does not enforce: an
    AVAILABLE row has no owner, user or timestamp, and a RESERVED or BOOKED
    row has an owner. *)
Definition rowOK (r : SeatRow) : Prop :=
  match status r with
  | SeatAvailable => reserved_by r = None /\ user_id r = None /\ reserved_at r = None
  | SeatReserved | SeatBooked => reserved_by r <> None
  end.

(** What no store method changes in a seat row. *)
Definition seatKey (r : SeatRow) : string * string * string :=
  (seat_id r, flight_id r, seat_number r).

(** What becomes of the seat table under each method that writes it. *)
Inductive SeatWrite :=
| WReserve (flightID : string) (nums : list string) (orderID userID : string)
| WRelease (orderID : string)
| WUpdate (orderID : string) (oldSeats newSeats : list string)
| WConfirm (orderID : string)
| WReset (flightID : string).

Definition write (env : Env) (w : SeatWrite) (db : DB) : Outcome * DB :=
  match w with
  | WReserve flightID nums orderID userID => ReserveSeats env flightID nums orderID userID db
  | WRelease orderID => ReleaseSeats env orderID db
  | WUpdate orderID oldSeats newSeats => UpdateSeats env orderID oldSeats newSeats db
  | WConfirm orderID => ConfirmSeats env orderID db
  | WReset flightID => ResetFlightSeats env flightID db
  end.

(** The effects that start or stop the hold timer. *)
Definition timerEffect (e : Effect) : bool :=
  match e with
  | NewTimer _ | CancelTimer => true
  | _ => false
  end.

(** The effects that settle the seats of an order. *)
Definition settles (e : Effect) : Prop :=
  match e with
  | ActReleaseSeats _ | ActConfirmSeats _ => True
  | _ => False
  end.

(** [fmt.Errorf("failed to release seats: %w", releaseErr)], if there is one. *)
Definition releaseFailure (releaseErr : option error) : option error :=
  fmt_Errorf_w "failed to release seats" <$> releaseErr.

(** The loop is waiting in Select: the hold stands and nothing has failed. *)
Definition waiting (l : Loop) : Prop :=
  Status (state l) = StatusSeatsReserved /\ workflowErr l = None.

(** Two loops that differ at most in the activities they have asked for. *)
Definition sameCourse (l1 l0 : Loop) : Prop :=
  state l1 = state l0 /\ workflowErr l1 = workflowErr l0 /\
  filter (fun e => timerEffect e = true) (effects l1)
  = filter (fun e => timerEffect e = true) (effects l0).

(** The loop a run enters after a successful initial hold. *)
Definition enteredLoop (cfg : Config) (input : BookingInput) (now1 : Z) : Loop :=
  mkLoop (mkState (in_OrderID input) (in_FlightID input) (in_UserID input)
                  (in_Seats input) StatusSeatsReserved now1 0)
         None
         [ActReserveSeats (in_FlightID input) (in_Seats input)
                          (in_OrderID input) (in_UserID input);
          ActUpdateOrderStatus (in_OrderID input) StatusSeatsReserved;
          NewTimer (ReservationTimeout cfg)].

(** What the three signalling handlers have in common: at most one signal
    is sent, to the workflow and run recorded in the order row, and the reply
    is 200 exactly when it was sent and SignalWorkflow returned nil. *)
Definition deliversTo (env : Env) (orderID : string) (db : DB) (signalErr : option error)
    (out : Reply * list Sent) : Prop :=
  (length out.2 <= 1)%nat /\
  (forall s, s ∈ out.2 ->
     exists order, GetOrder env orderID db = inr order /\
       to_workflow s = workflow_id order /\ to_run s = run_id order) /\
  (statusCode out.1 = 200 <-> out.2 <> [] /\ signalErr = None) /\
  (out.2 = [] -> statusCode out.1 = 400 \/ statusCode out.1 = 404).

(** Whether a payment ends in success: the code is five digits and one of the
    three attempts does not hit the simulated gateway failure. *)
Definition paymentPasses (draws : nat -> bool * string) (paymentCode : string) : bool :=
  PaymentActivities.fiveDigits paymentCode
  && negb ((draws 0%nat).1 && (draws 1%nat).1 && (draws 2%nat).1).

(** ** Sample tables

    Flight FL123 at an instant [t0 + 60s]: order O1 holds A5 and A6 since
    [t0], order O2 has booked A7, and row C9 is marked RESERVED for O1 with a
    NULL reserved_at. *)

Definition t0 : Z := 1700000000 * GoTime.Second.

Definition seatOf (n : string) (st : SeatStatus) (owner user : option string)
    (at_ : option Z) : SeatRow :=
  mkSeat ("seat-" +:+ n) "FL123" n st owner user at_.

Definition sampleSeats : list SeatRow :=
  [ seatOf "A1" SeatAvailable None None None;
    seatOf "A5" SeatReserved (Some "O1") (Some "alice") (Some t0);
    seatOf "A6" SeatReserved (Some "O1") (Some "alice") (Some t0);
    seatOf "A7" SeatBooked (Some "O2") (Some "bob") (Some t0);
    seatOf "B5" SeatAvailable None None None;
    seatOf "C9" SeatReserved (Some "O1") (Some "alice") None ].

Definition sampleOrders : list OrderRow :=
  [ mkOrder "O1" "FL123" "alice" StatusSeatsReserved "O1" "run-1" t0;
    mkOrder "O2" "FL123" "bob" StatusConfirmed "O2" "run-2" t0 ].

Definition sampleDB : DB := mkDB sampleSeats sampleOrders.

Definition envAt (now : Z) : Env := mkEnv noFaults now now.

Definition sampleEnv : Env := envAt (t0 + 60 * GoTime.Second).

(** * Properties *)

(** Closed decidable facts about the sample tables are settled by evaluation. *)
Ltac by_evaluation := apply (bool_decide_unpack _); vm_compute; exact I.

(** ** The row loops of the seat store *)

(** When a locked row passes the test of the row loop. *)
Lemma takeable_spec (now : Z) (r : SeatRow) :
  takeable now r = true <->
  status r = SeatAvailable \/
  (status r = SeatReserved /\
   exists t, reserved_at r = Some t /\ staleAfter < GoTime.Since now t).
Proof.
  unfold takeable.
  destruct (status r) eqn:Hs, (reserved_at r) as [t|] eqn:Ha;
    rewrite ?bool_decide_eq_true; split; intros H; try done; auto.
  - right. split; [done|]. by exists t.
  - destruct H as [H|[_ (t' & Ht' & Hlt)]]; [done|]. by simplify_eq.
  - destruct H as [H|[_ (t' & Ht' & _)]]; done.
  - destruct H as [H|[H _]]; done.
  - destruct H as [H|[H _]]; done.
Qed.

Lemma found_insert (fs : gmap string bool) (k n : string) :
  found (<[k := true]> fs) n = true <-> k = n \/ found fs n = true.
Proof.
  unfold found. destruct (decide (k = n)) as [->|Hne].
  - rewrite lookup_insert_eq. split; [by left|done].
  - rewrite lookup_insert_ne by done. split; [by right|]. by intros [?|?].
Qed.

Lemma found_empty (n : string) : found ∅ n = false.
Proof. unfold found. by rewrite lookup_empty. Qed.

Section ScanLocked.

Context (now : Z) (notAvailable : string -> error).

(** The loop runs to its end exactly when every row is takeable, and then
    it has recorded the seat numbers of all the rows. *)
Lemma scanLocked_inr (rows : list SeatRow) (fs0 fs : gmap string bool) :
  scanLocked now notAvailable rows fs0 = inr fs ->
  Forall (fun r => takeable now r = true) rows /\
  forall n, found fs n = true <-> found fs0 n = true \/ n ∈ seat_number <$> rows.
Proof.
  revert fs0. induction rows as [|r rows IH]; intros fs0 H; simpl in H.
  - simplify_eq. split; [constructor|]. intros n. rewrite fmap_nil.
    split; [auto|]. intros [?|Hin]; [done|]. by apply elem_of_nil in Hin.
  - destruct (takeable now r) eqn:Ht; [|done].
    apply IH in H as [Hall Hfound]. split; [by constructor|].
    intros n. rewrite Hfound, found_insert, fmap_cons, elem_of_cons.
  intuition (subst; auto).
Qed.

(** The loop stops at the first row that is not takeable and names it. *)
Lemma scanLocked_inl (rows : list SeatRow) (fs0 : gmap string bool) (e : error) :
  scanLocked now notAvailable rows fs0 = inl e ->
  exists pre r post,
    rows = pre ++ r :: post /\
    Forall (fun r => takeable now r = true) pre /\
    takeable now r = false /\
    e = notAvailable (seat_number r).
Proof.
  revert fs0. induction rows as [|r rows IH]; intros fs0 H; simpl in H; [done|].
  destruct (takeable now r) eqn:Ht.
  - apply IH in H as (pre & r' & post & -> & Hpre & Hr' & ->).
    exists (r :: pre), r', post. split_and!; [done|by constructor|done|done].
  - simplify_eq. exists [], r, rows. split_and!; [done|constructor|done|done].
Qed.

Lemma scanLocked_all (rows : list SeatRow) (fs0 : gmap string bool) :
  Forall (fun r => takeable now r = true) rows ->
  exists fs, scanLocked now notAvailable rows fs0 = inr fs.
Proof.
  intros Hall. destruct (scanLocked now notAvailable rows fs0) as [e|fs] eqn:H; [|eauto].
  apply scanLocked_inl in H as (pre & r & post & -> & _ & Hr & _).
  apply Forall_app in Hall as [_ Hall]. apply Forall_cons in Hall as [Hr' _]. congruence.
Qed.

Lemma scanLocked_some (rows : list SeatRow) (fs0 : gmap string bool) (r : SeatRow) :
  r ∈ rows -> takeable now r = false ->
  exists r', r' ∈ rows /\ takeable now r' = false /\
             scanLocked now notAvailable rows fs0 = inl (notAvailable (seat_number r')).
Proof.
  intros Hin Hr.
  destruct (scanLocked now notAvailable rows fs0) as [e|fs] eqn:H.
  - apply scanLocked_inl in H as (pre & r' & post & -> & _ & Hr' & ->).
    exists r'. split_and!; [|done|done]. apply elem_of_app. right. apply elem_of_cons. by left.
  - apply scanLocked_inr in H as [Hall _].
    rewrite Forall_forall in Hall. apply Hall in Hin. congruence.
Qed.

End ScanLocked.

Section VerifyExist.

Context (notExist : string -> error).

Lemma verifyExist_None (requested : list string) (fs : gmap string bool) :
  verifyExist notExist requested fs = None <->
  forall n, n ∈ requested -> found fs n = true.
Proof.
  induction requested as [|n requested IH]; simpl.
  - split; [|done]. intros _ n Hn. by apply elem_of_nil in Hn.
  - destruct (found fs n) eqn:Hf.
    + rewrite IH. split.
      * intros H n' Hn'. apply elem_of_cons in Hn' as [->|Hn']; auto.
      * intros H n' Hn'. apply H. apply elem_of_cons. by right.
    + split; [done|]. intros H. specialize (H n). rewrite Hf in H.
      discriminate H. apply elem_of_cons. by left.
Qed.


End VerifyExist.

(** ** Transactions of the seat store *)

Lemma sqlUpdate_no_seats (P : list string -> SeatRow -> Prop)
    `{!forall nums r, Decision (P nums r)} (f : SeatRow -> SeatRow) (rows : list SeatRow) :
  (forall r, ~ P [] r) -> sqlUpdate (P []) f rows = rows.
Proof.
  intros HP. unfold sqlUpdate. induction rows as [|r rows IH]; [done|].
  rewrite fmap_cons, IH. by rewrite decide_False by apply HP.
Qed.

Lemma releaseOld_run (env : Env) (orderID : string) (oldSeats : list string) (v : DB) :
  releaseOld env orderID oldSeats v =
  if bool_decide (oldSeats <> []) && release_exec_fails (faults env)
  then TxFail (fmt_Errorf_w "failed to release old seats" badConn) v
  else TxOk tt (withSeats v (sqlUpdate (ownedAmong orderID oldSeats) setAvailable (seats v))).
Proof.
  destruct oldSeats as [|n oldSeats]; simpl.
  - unfold tx_ret. f_equal. rewrite sqlUpdate_no_seats; [by destruct v|].
    intros r [_ H]. by apply elem_of_nil in H.
  - unfold tx_bind, tx_get, tx_fail, tx_put. by destruct (release_exec_fails _).
Qed.

(** The locking select, the two loops and the update, step by step. *)
Lemma lockCheckReserve_run (env : Env) (lockMsg reserveMsg : string)
    (notAvailable notExist : string -> error)
    (flightID : string) (nums : list string) (orderID userID : string) (v : DB) :
  lockCheckReserve env lockMsg reserveMsg notAvailable notExist flightID nums orderID userID v =
  if lock_query_fails (faults env)
  then TxFail (fmt_Errorf_w lockMsg badConn) v
  else match scanLocked (goNow env) notAvailable
               (sqlSelect (inFlightSeats flightID nums) (seats v)) ∅ with
       | inl e => TxFail e v
       | inr foundSeats =>
           match verifyExist notExist nums foundSeats with
           | Some e => TxFail e v
           | None =>
               if reserve_exec_fails (faults env)
               then TxFail (fmt_Errorf_w reserveMsg badConn) v
               else TxOk tt (withSeats v
                       (sqlUpdate (inFlightSeats flightID nums)
                                  (setReserved orderID userID (sqlNow env)) (seats v)))
           end
       end.
Proof.
  unfold lockCheckReserve, tx_bind, tx_get, tx_fail, tx_put.
  by repeat case_match.
Qed.

(** The update leaves alone every row that holds no requested seat. *)
Lemma reserveNew_run (env : Env) (flightID : string) (newSeats : list string)
    (orderID userID : string) (v : DB) :
  newSeats = [] /\ reserveNew env flightID newSeats orderID userID v = TxOk tt v \/
  newSeats <> [] /\
  reserveNew env flightID newSeats orderID userID v =
  lockCheckReserve env "failed to lock new seats" "failed to reserve new seats"
    (fun seatNumber => fmt_Errorf ("seat " +:+ seatNumber +:+ " is not available"))
    (fun seat => fmt_Errorf ("seat " +:+ seat +:+ " does not exist"))
    flightID newSeats orderID userID v.
Proof. destruct newSeats; [by left|by right]. Qed.

(** A transaction that does not commit leaves the tables as they were. *)
Lemma inTx_unchanged (env : Env) (body : Tx unit) (db db' : DB) (o : Outcome) :
  inTx env body db = (o, db') -> o <> Returned None -> db' = db.
Proof.
  unfold inTx. intros H Ho. repeat case_match; by simplify_eq.
Qed.

(** A transaction that returns no error has run its body to the end and
    committed the view the body reached. *)
Lemma inTx_committed (env : Env) (body : Tx unit) (db db' : DB) :
  inTx env body db = (Returned None, db') ->
  begin_fails (faults env) = false /\ commit_fails (faults env) = false /\
  body db = TxOk tt db'.
Proof.
  unfold inTx. intros H.
  destruct (begin_fails _); [done|].
  destruct (body db) as [[] view|e view|msg view]; [|done|done].
  destruct (commit_fails _); [done|]. by simplify_eq.
Qed.

Lemma orderInfo_run (env : Env) (orderID : string) (v : DB) :
  orderInfo env orderID v =
  if order_query_fails (faults env)
  then TxFail (fmt_Errorf_w "failed to get order info" badConn) v
  else match orderRow orderID v with
       | Some o => TxOk (o_flight_id o, o_user_id o) v
       | None => TxFail (fmt_Errorf_w "failed to get order info" (sentinel sql_ErrNoRows)) v
       end.
Proof.
  unfold orderInfo, orderRow, tx_bind, tx_get, tx_fail, tx_ret.
  destruct (order_query_fails _); [done|]. by destruct (filter _ _).
Qed.

Lemma UpdateSeats_committed (env : Env) (orderID : string) (oldSeats newSeats : list string)
    (db db' : DB) :
  UpdateSeats env orderID oldSeats newSeats db = (Returned None, db') ->
  exists o,
    orderRow orderID db = Some o /\
    db' = withSeats db (swapped env orderID oldSeats newSeats (o_flight_id o) (o_user_id o) (seats db)) /\
    (forall n, n ∈ newSeats ->
       exists r, r ∈ sqlUpdate (ownedAmong orderID oldSeats) setAvailable (seats db) /\
                 inFlightSeats (o_flight_id o) newSeats r /\ seat_number r = n) /\
    Forall (fun r => takeable (goNow env) r = true)
      (sqlSelect (inFlightSeats (o_flight_id o) newSeats)
         (sqlUpdate (ownedAmong orderID oldSeats) setAvailable (seats db))).
Proof.
  intros H. apply inTx_committed in H as (_ & _ & H).
  unfold UpdateSeatsBody, tx_bind in H. rewrite orderInfo_run in H.
  destruct (order_query_fails _); [done|].
  destruct (orderRow orderID db) as [o|] eqn:Ho; [|done].
  exists o. split; [done|]. simpl in H.
  rewrite releaseOld_run in H.
  destruct (_ && _); [done|].
  set (v := withSeats db _) in H.
  destruct (reserveNew_run env (o_flight_id o) newSeats orderID (o_user_id o) v)
    as [[-> Hr]|[Hne Hr]]; rewrite Hr in H.
  - simplify_eq. unfold swapped. split_and!.
    + f_equal. rewrite sqlUpdate_no_seats; [done|]. intros r [_ Hin]. by apply elem_of_nil in Hin.
    + intros n Hn. by apply elem_of_nil in Hn.
    + apply Forall_forall. intros r Hin.
      apply list_elem_of_filter in Hin as [[_ Hin] _]. by apply elem_of_nil in Hin.
  - rewrite lockCheckReserve_run in H.
    destruct (lock_query_fails _); [done|].
    destruct (scanLocked _ _ _ _) as [e|fs] eqn:Hscan; [done|].
    destruct (verifyExist _ _ _) eqn:Hver; [done|].
    destruct (reserve_exec_fails _); [done|].
    simplify_eq. apply scanLocked_inr in Hscan as [Hall Hfound].
    split_and!; [done| |done].
    intros n Hn. rewrite verifyExist_None in Hver. apply Hver in Hn as Hf.
    apply Hfound in Hf as [Hf|Hf]; [by rewrite found_empty in Hf|].
    apply list_elem_of_fmap in Hf as (r & -> & Hr').
    apply list_elem_of_filter in Hr' as [HP Hr']. eauto.
Qed.

Lemma heldSeats_elem (orderID : string) (db : DB) (f n : string) :
  (f, n) ∈ heldSeats orderID db <->
  exists r, r ∈ seats db /\ reserved_by r = Some orderID /\ flight_id r = f /\ seat_number r = n.
Proof.
  unfold heldSeats, ownedRows, sqlSelect. rewrite list_elem_of_fmap. split.
  - intros (r & Heq & Hr). apply list_elem_of_filter in Hr as [Ho Hr].
    exists r. by simplify_eq.
  - intros (r & Hr & Ho & <- & <-). exists r. split; [done|].
    by apply list_elem_of_filter.
Qed.


(** ** Seat updates *)

(** C5. A call of UpdateSeats that does not return nil (an error of any kind,
    or a panic) leaves both tables exactly as they were; a call that returns
    nil has found the order row and applied both statements, the release of
    the old seats and the reservation of the new ones, to the seat table. *)
Theorem UpdateSeats_all_or_nothing (env : Env) (orderID : string)
    (oldSeats newSeats : list string) (db : DB) :
  match UpdateSeats env orderID oldSeats newSeats db with
  | (Returned None, db') =>
      exists o, orderRow orderID db = Some o /\
        db' = withSeats db
                (swapped env orderID oldSeats newSeats (o_flight_id o) (o_user_id o) (seats db))
  | (_, db') => db' = db
  end.
Proof.
  destruct (UpdateSeats env orderID oldSeats newSeats db) as [out db'] eqn:H.
  destruct out as [[e|]|msg].
  - by eapply inTx_unchanged.
  - apply UpdateSeats_committed in H as (o & Ho & Hdb & _). eauto.
  - by eapply inTx_unchanged.
Qed.




(** ** Reserving seats *)

(** What ReserveSeats does once the transaction is open and the rows are
    locked. *)
Lemma ReserveSeats_run (env : Env) (flightID : string) (nums : list string)
    (orderID userID : string) (db : DB) :
  begin_fails (faults env) = false ->
  lock_query_fails (faults env) = false ->
  nums <> [] ->
  ReserveSeats env flightID nums orderID userID db =
  match scanLocked (goNow env) seatNotAvailable
          (sqlSelect (inFlightSeats flightID nums) (seats db)) ∅ with
  | inl e => (Returned (Some e), db)
  | inr foundSeats =>
      match verifyExist seatNotExist nums foundSeats with
      | Some e => (Returned (Some e), db)
      | None =>
          if reserve_exec_fails (faults env)
          then (Returned (Some (fmt_Errorf_w "failed to reserve seats" badConn)), db)
          else if commit_fails (faults env)
          then (Returned (Some badConn), db)
          else (Returned None,
                withSeats db (sqlUpdate (inFlightSeats flightID nums)
                                (setReserved orderID userID (sqlNow env)) (seats db)))
      end
  end.
Proof.
  intros Hb Hl Hne. unfold ReserveSeats, inTx. rewrite Hb.
  destruct nums as [|n nums]; [done|].
  rewrite lockCheckReserve_run, Hl.
  repeat case_match; by simplify_eq.
Qed.




(** A locked row that is not takeable makes ReserveSeats fail with
    ErrSeatNotAvailable, naming the first such row, and change nothing. *)
Lemma ReserveSeats_not_takeable (env : Env) (nums : list string)
    (orderID userID : string) (db : DB) (r : SeatRow) :
  begin_fails (faults env) = false ->
  lock_query_fails (faults env) = false ->
  r ∈ seats db -> seat_number r ∈ nums -> takeable (goNow env) r = false ->
  exists r', r' ∈ seats db /\ inFlightSeats (flight_id r) nums r' /\
    takeable (goNow env) r' = false /\
    ReserveSeats env (flight_id r) nums orderID userID db
    = (Returned (Some (seatNotAvailable (seat_number r'))), db).
Proof.
  intros Hb Hl Hr Hn Ht.
  rewrite ReserveSeats_run by (try done; by intros ->; apply elem_of_nil in Hn).
  assert (Hlocked : r ∈ sqlSelect (inFlightSeats (flight_id r) nums) (seats db)).
  { apply list_elem_of_filter. by repeat split. }
  destruct (scanLocked_some (goNow env) seatNotAvailable _ ∅ r Hlocked Ht)
    as (r' & Hr' & Ht' & ->).
  apply list_elem_of_filter in Hr' as [HP Hr'].
  by exists r'.
Qed.

Lemma takeable_no_timestamp (now : Z) (r : SeatRow) :
  status r = SeatReserved -> reserved_at r = None -> takeable now r = false.
Proof. unfold takeable. by intros -> ->. Qed.

(** The release statement of UpdateSeats leaves a row alone unless the order
    owns it and its number is among the old seats. *)
Lemma released_keeps (orderID : string) (oldSeats : list string)
    (rows : list SeatRow) (r : SeatRow) :
  r ∈ rows -> ~ ownedAmong orderID oldSeats r ->
  r ∈ sqlUpdate (ownedAmong orderID oldSeats) setAvailable rows.
Proof.
  intros Hr Hno. apply list_elem_of_fmap. exists r. split; [|done].
  by rewrite decide_False.
Qed.

(** C10 (as amended). A row that is RESERVED with a NULL reserved_at is never
    takeable, whatever the clock reads.  A call of ReserveSeats that locks it
    fails with ErrSeatNotAvailable and changes nothing.  A call of UpdateSeats
    that asks for it among the new seats fails with a "seat ... is not
    available" error and changes nothing, unless the calling order owns the
    row and lists its number among the old seats (then the release statement
    has made it AVAILABLE first). *)
Theorem reserved_without_timestamp_stays (env : Env) (orderID userID : string)
    (db : DB) (r : SeatRow) :
  r ∈ seats db -> status r = SeatReserved -> reserved_at r = None ->
  (forall nums,
      begin_fails (faults env) = false ->
      lock_query_fails (faults env) = false ->
      seat_number r ∈ nums ->
      exists e,
        ReserveSeats env (flight_id r) nums orderID userID db = (Returned (Some e), db) /\
        Is e ErrSeatNotAvailable = true) /\
  (forall o oldSeats newSeats,
      begin_fails (faults env) = false ->
      order_query_fails (faults env) = false ->
      release_exec_fails (faults env) = false ->
      lock_query_fails (faults env) = false ->
      orderRow orderID db = Some o ->
      o_flight_id o = flight_id r ->
      seat_number r ∈ newSeats ->
      ~ ownedAmong orderID oldSeats r ->
      exists n,
        UpdateSeats env orderID oldSeats newSeats db
        = (Returned (Some (fmt_Errorf ("seat " +:+ n +:+ " is not available"))), db)).
Proof.
  intros Hr Hs Ha. pose proof (takeable_no_timestamp (goNow env) r Hs Ha) as Ht. split.
  - intros nums Hb Hl Hn.
    destruct (ReserveSeats_not_takeable env nums orderID userID db r Hb Hl Hr Hn Ht)
      as (r' & _ & _ & _ & ->).
    by eexists.
  - intros o oldSeats newSeats Hb Hq Hrel Hl Ho Hf Hn Hown.
    unfold UpdateSeats, inTx, UpdateSeatsBody, tx_bind. rewrite Hb, orderInfo_run, Hq, Ho.
    rewrite releaseOld_run, Hrel, andb_false_r. simpl.
    destruct (reserveNew_run env (o_flight_id o) newSeats orderID (o_user_id o)
                (withSeats db (sqlUpdate (ownedAmong orderID oldSeats) setAvailable (seats db))))
      as [[-> _]|[_ ->]]; [by apply elem_of_nil in Hn|].
    rewrite lockCheckReserve_run, Hl. simpl.
    assert (Hlocked : r ∈ sqlSelect (inFlightSeats (o_flight_id o) newSeats)
                          (sqlUpdate (ownedAmong orderID oldSeats) setAvailable (seats db))).
    { apply list_elem_of_filter. split; [by split|]. by apply released_keeps. }
    destruct (scanLocked_some (goNow env)
                (fun seatNumber => fmt_Errorf ("seat " +:+ seatNumber +:+ " is not available"))
                _ ∅ r Hlocked Ht) as (r' & _ & _ & ->).
    by eexists.
Qed.

Lemma reserved_without_timestamp_stays_witness :
  let r := seatOf "C9" SeatReserved (Some "O1") (Some "alice") None in
  (forall nums,
      begin_fails (faults sampleEnv) = false ->
      lock_query_fails (faults sampleEnv) = false ->
      seat_number r ∈ nums ->
      exists e,
        ReserveSeats sampleEnv (flight_id r) nums "O2" "bob" sampleDB
        = (Returned (Some e), sampleDB) /\
        Is e ErrSeatNotAvailable = true) /\
  (forall o oldSeats newSeats,
      begin_fails (faults sampleEnv) = false ->
      order_query_fails (faults sampleEnv) = false ->
      release_exec_fails (faults sampleEnv) = false ->
      lock_query_fails (faults sampleEnv) = false ->
      orderRow "O2" sampleDB = Some o ->
      o_flight_id o = flight_id r ->
      seat_number r ∈ newSeats ->
      ~ ownedAmong "O2" oldSeats r ->
      exists n,
        UpdateSeats sampleEnv "O2" oldSeats newSeats sampleDB
        = (Returned (Some (fmt_Errorf ("seat " +:+ n +:+ " is not available"))), sampleDB)).
Proof.
  apply (reserved_without_timestamp_stays sampleEnv "O2" "bob" sampleDB
           (seatOf "C9" SeatReserved (Some "O1") (Some "alice") None)).
  - by_evaluation.
  - reflexivity.
  - reflexivity.
Defined.

(** C10, the claim as stated fails: row C9 is RESERVED for O1 with a NULL
    reserved_at; O1 itself asks for C9 again, naming it among its old seats,
    and the call returns nil with C9 reserved afresh. *)
Lemma UpdateSeats_retakes_own_unstamped_row :
  let r := seatOf "C9" SeatReserved (Some "O1") (Some "alice") None in
  r ∈ seats sampleDB /\ status r = SeatReserved /\ reserved_at r = None /\
  (UpdateSeats sampleEnv "O1" ["C9"] ["C9"] sampleDB).1 = Returned None /\
  seatOf "C9" SeatReserved (Some "O1") (Some "alice") (Some (sqlNow sampleEnv))
    ∈ seats (UpdateSeats sampleEnv "O1" ["C9"] ["C9"] sampleDB).2.
Proof.
  split_and!; try reflexivity.
  - by_evaluation.
  - by_evaluation.
Qed.

(** C4, the code at the failing input: the hold window is configured as 30
    seconds and seat A5 has been held for 31; ReserveSeats, which compares
    against 15 minutes, still refuses it. *)
Lemma ReserveSeats_cutoff_not_configured :
  let cfg := mkConfig (30 * GoTime.Second) (10 * GoTime.Second) 3 in
  let env := envAt (t0 + 31 * GoTime.Second) in
  ReservationTimeout cfg < GoTime.Since (goNow env) t0 /\
  ReserveSeats env "FL123" ["A5"] "O3" "carol" sampleDB
  = (Returned (Some (seatNotAvailable "A5")), sampleDB).
Proof. split; vm_compute; reflexivity. Qed.

(** Past the 15 minutes of the code, the same seat is taken over. *)
Example ReserveSeats_reclaims_stale_hold :
  let env := envAt (t0 + 15 * GoTime.Minute + 1) in
  (ReserveSeats env "FL123" ["A5"] "O3" "carol" sampleDB).1 = Returned None /\
  seatOf "A5" SeatReserved (Some "O3") (Some "carol") (Some (sqlNow env))
    ∈ seats (ReserveSeats env "FL123" ["A5"] "O3" "carol" sampleDB).2.
Proof.
  split; [vm_compute; reflexivity|].
  by_evaluation.
Qed.

(** The rollback is what keeps a failed UpdateSeats from showing: the view the
    body had reached when it failed on the booked seat A7 already had A5
    released. *)
Example UpdateSeats_body_fails_midway :
  exists e view,
    UpdateSeatsBody sampleEnv "O1" ["A5"] ["A7"] sampleDB = TxFail e view /\
    view <> sampleDB /\
    (UpdateSeats sampleEnv "O1" ["A5"] ["A7"] sampleDB).2 = sampleDB.
Proof.
  eexists _, _. split_and!.
  - vm_compute. reflexivity.
  - discriminate.
  - reflexivity.
Qed.

(** ** Errors at the activity boundary *)

(** An error of the ReserveSeats activity is never flagged non-retryable: the
    activity wraps whatever the store returns with [fmt.Errorf]. *)
Lemma SeatActivities_ReserveSeats_retryable (env : Env) (flightID : string)
    (nums : list string) (orderID userID : string) (db db' : DB) (e : error) :
  SeatActivities.ReserveSeats env flightID nums orderID userID db = (Returned (Some e), db') ->
  nonRetryable e = false.
Proof.
  unfold SeatActivities.ReserveSeats, wrapErr.
  destruct (ReserveSeats _ _ _ _ _ _) as [[[e'|]|msg] db'']; intros H; by simplify_eq.
Qed.

(** C2, the code at the failing input: seat A7 is booked and order O3 asks
    for it.  The store rejects with ErrSeatNotAvailable and the text names
    the seat, but the activity hands the runtime a retryable error, so the
    five attempts of the retry policy are all made. *)
Lemma ReserveSeats_rejection_is_retried :
  let activity := SeatActivities.ReserveSeats sampleEnv "FL123" ["A7"] "O3" "carol" in
  let err := fmt_Errorf_w "failed to reserve seats" (seatNotAvailable "A7") in
  activity sampleDB = (Returned (Some err), sampleDB) /\
  Is err ErrSeatNotAvailable = true /\
  Error err = "failed to reserve seats: seat A7: seat not available" /\
  nonRetryable err = false /\
  ExecuteActivity seatMaximumAttempts activity sampleDB
  = (Returned (Some err), sampleDB, 5%nat).
Proof. split_and!; vm_compute; reflexivity. Qed.

(** The store's UpdateOrderStatus never returns the package-level
    ErrOrderNotFound: for a missing row it makes a new error value with the
    same text. *)
Lemma UpdateOrderStatus_never_sentinel (env : Env) (orderID : string) (st : OrderStatus)
    (db db' : DB) (e : error) :
  UpdateOrderStatus env orderID st db = (Returned (Some e), db') ->
  Is e ErrOrderNotFound = false.
Proof.
  unfold UpdateOrderStatus. intros H. repeat case_match; by simplify_eq.
Qed.

(** So the non-retryable branch of the activity is never taken. *)
Lemma OrderActivities_UpdateOrderStatus_retryable (env : Env) (orderID : string)
    (st : OrderStatus) (db db' : DB) (e : error) :
  OrderActivities.UpdateOrderStatus env orderID st db = (Returned (Some e), db') ->
  nonRetryable e = false.
Proof.
  unfold OrderActivities.UpdateOrderStatus.
  destruct (UpdateOrderStatus env orderID st db) as [[[e'|]|msg] db''] eqn:Hs; intros H.
  - rewrite (UpdateOrderStatus_never_sentinel _ _ _ _ _ _ Hs) in H. by simplify_eq.
  - by simplify_eq.
  - by simplify_eq.
Qed.

(** C6, the code at the failing input: no order row has id O9.  The store
    returns a new "order not found" error, which [errors.Is] does not take
    for ErrOrderNotFound; the activity therefore returns a retryable error and
    the runtime makes all five attempts. *)
Lemma UpdateOrderStatus_missing_order_is_retried :
  let activity := OrderActivities.UpdateOrderStatus sampleEnv "O9" StatusSeatsReserved in
  let err := fmt_Errorf_w "failed to update order status" (errors_New "order not found") in
  orderRow "O9" sampleDB = None /\
  UpdateOrderStatus sampleEnv "O9" StatusSeatsReserved sampleDB
  = (Returned (Some (errors_New "order not found")), sampleDB) /\
  Is (errors_New "order not found") ErrOrderNotFound = false /\
  activity sampleDB = (Returned (Some err), sampleDB) /\
  nonRetryable err = false /\
  ExecuteActivity seatMaximumAttempts activity sampleDB
  = (Returned (Some err), sampleDB, 5%nat).
Proof. split_and!; vm_compute; reflexivity. Qed.

(** ** The event loop *)

(** An initial hold that ends in an error leaves the workflow FAILED, with
    nothing asked of the runtime but the reservation. *)
Lemma BookingWorkflow_initial_hold_fails (cfg : Config) (runID : string)
    (input : BookingInput) (now0 now1 : Z) (err : error) (turns : list Turn) :
  let wf := BookingWorkflow cfg runID input now0 (Some err) now1 turns in
  Status (result wf) = StatusFailed /\
  completion wf = Completed (Some err) /\
  trace wf = [ActReserveSeats (in_FlightID input) (in_Seats input)
                               (in_OrderID input) (in_UserID input)].
Proof. done. Qed.

(** The loop has left exactly when the exit condition holds. *)
Lemma eventLoop_exit (cfg : Config) (runID : string) (turns : list Turn)
    (l l' : Loop) (left_ : bool) :
  exitCondition l = false ->
  eventLoop cfg runID turns l = (l', left_) ->
  exitCondition l' = left_.
Proof.
  revert l. induction turns as [|t turns IH]; intros l Hl H; simpl in H.
  - by simplify_eq.
  - destruct (exitCondition (handle cfg runID t l)) eqn:Hexit.
    + by simplify_eq.
    + by eapply IH.
Qed.

(** Once the loop has left, turns delivered later are not serviced. *)
Lemma eventLoop_left (cfg : Config) (runID : string) (turns more : list Turn)
    (l l' : Loop) :
  eventLoop cfg runID turns l = (l', true) ->
  eventLoop cfg runID (turns ++ more) l = (l', true).
Proof.
  revert l. induction turns as [|t turns IH]; intros l H; simpl in *; [done|].
  destruct (exitCondition (handle cfg runID t l)); [done|]. by apply IH.
Qed.

(** C3. Once the status of a run is CONFIRMED, FAILED, EXPIRED or CANCELLED,
    the workflow has returned, and whatever signals or timer events are
    delivered afterwards, the run is the same: same state (so same status),
    same result, and no further activity or timer is asked for. *)
Theorem BookingWorkflow_terminal_absorbing (cfg : Config) (runID : string)
    (input : BookingInput) (now0 : Z) (reserveErr : option error) (now1 : Z)
    (turns more : list Turn) :
  terminal (Status (result (BookingWorkflow cfg runID input now0 reserveErr now1 turns))) = true ->
  completion (BookingWorkflow cfg runID input now0 reserveErr now1 turns) <> Waiting /\
  BookingWorkflow cfg runID input now0 reserveErr now1 (turns ++ more)
  = BookingWorkflow cfg runID input now0 reserveErr now1 turns.
Proof.
  unfold BookingWorkflow. destruct reserveErr as [err|]; [done|].
  set (l := mkLoop _ None _).
  destruct (eventLoop cfg runID turns l) as [l' left_] eqn:Hloop.
  assert (Hl : exitCondition l = false) by done.
  pose proof (eventLoop_exit _ _ _ _ _ _ Hl Hloop) as Hexit.
  destruct left_.
  - intros _. by rewrite (eventLoop_left _ _ _ more _ _ Hloop).
  - simpl. intros Hterm. unfold exitCondition in Hexit. by rewrite Hterm in Hexit.
Qed.

Lemma BookingWorkflow_terminal_absorbing_witness :
  let input := mkInput "O1" "FL123" "alice" ["A5"; "A6"] in
  let turns := [RecvUpdateSeats ["B5"] None (t0 + 20 * GoTime.Second); RecvCancelOrder None] in
  let more := [RecvSubmitPayment "12345" None (mkPaymentResult true "tx-1" "") None;
               TimerReady None None] in
  completion (BookingWorkflow defaultConfig "run-1" input t0 None t0 turns) <> Waiting /\
  BookingWorkflow defaultConfig "run-1" input t0 None t0 (turns ++ more)
  = BookingWorkflow defaultConfig "run-1" input t0 None t0 turns.
Proof.
  apply (BookingWorkflow_terminal_absorbing defaultConfig "run-1"
           (mkInput "O1" "FL123" "alice" ["A5"; "A6"]) t0 None t0).
  reflexivity.
Defined.

(** ** The request facade *)





(** With the default window, 60.5 seconds into a hold that started at [t0]:
    839.5 seconds are left and 839 are reported. *)
Example GetOrderStatus_after_a_minute :
  let env := envAt (t0 + 60 * GoTime.Second + 500000000) in
  let st := mkState "O1" "FL123" "alice" ["A5"; "A6"] StatusSeatsReserved t0 0 in
  GetOrderStatus env defaultConfig (QueryState st) "O1" sampleDB
  = json_Status 200
      (mkStatusResponse "O1" "FL123" "alice" ["A5"; "A6"] StatusSeatsReserved 839 (Some t0)).
Proof. vm_compute. reflexivity. Qed.

(** The fraction of a second is dropped, not rounded: one nanosecond short of
    the full default window is reported as 899 seconds, and a lapsed hold as
    0. *)
Example GetOrderStatus_drops_fraction :
  let st := mkState "O1" "FL123" "alice" ["A5"; "A6"] StatusSeatsReserved t0 0 in
  GetOrderStatus (envAt (t0 + 1)) defaultConfig (QueryState st) "O1" sampleDB
  = json_Status 200
      (mkStatusResponse "O1" "FL123" "alice" ["A5"; "A6"] StatusSeatsReserved 899 (Some t0)) /\
  GetOrderStatus (envAt (t0 + 16 * GoTime.Minute)) defaultConfig (QueryState st) "O1" sampleDB
  = json_Status 200
      (mkStatusResponse "O1" "FL123" "alice" ["A5"; "A6"] StatusSeatsReserved 0 (Some t0)).
Proof. split; vm_compute; reflexivity. Qed.

(** C9. For a payment submission whose body decodes, the facade answers 400
    exactly when the payment code is not 5 bytes long; the reply is then the
    short message "payment code must be 5 digits" and no signal is sent to the
    workflow, so the order does not advance. *)
Theorem SubmitPayment_wrong_length (env : Env) (signalErr : option error)
    (orderID : string) (db : DB) (paymentCode : string) :
  (statusCode (SubmitPayment env (inr paymentCode) signalErr orderID db).1 = 400
   <-> String.length paymentCode <> 5%nat) /\
  (String.length paymentCode <> 5%nat ->
   SubmitPayment env (inr paymentCode) signalErr orderID db
   = (http_Error "payment code must be 5 digits" 400, [])).
Proof.
  unfold SubmitPayment. case_bool_decide as Hlen.
  - by split.
  - split; [|done]. split; [|done].
    destruct (GetOrder env orderID db); [done|]. by destruct signalErr.
Qed.

(** The length is all the facade looks at: five letters pass, the signal is
    sent, and it is the payment activity that finds the format wrong. *)
Example SubmitPayment_five_letters :
  SubmitPayment sampleEnv (inr "abcde") None "O1" sampleDB
  = (json_Message 200 "payment submitted",
     [mkSent "O1" "run-1" (SignalSubmitPayment "abcde")]) /\
  PaymentActivities.ValidatePayment false "tx-1" "abcde" "O1"
  = (mkPaymentResult false "" "invalid payment code format (must be 5 digits)", None).
Proof. split; vm_compute; reflexivity. Qed.

(** A malformed body is answered 400 as well, before any code is looked at. *)
Example SubmitPayment_malformed_body (env : Env) (err : error) (signalErr : option error)
    (orderID : string) (db : DB) :
  SubmitPayment env (inl err) signalErr orderID db
  = (http_Error ("invalid request body: " +:+ Error err) 400, []).
Proof. reflexivity. Qed.

(** * Further properties of the store *)

(** ** ReserveSeats *)

Lemma ReserveSeats_committed (env : Env) (flightID : string) (nums : list string)
    (orderID userID : string) (db db' : DB) :
  ReserveSeats env flightID nums orderID userID db = (Returned None, db') ->
  nums <> [] /\
  (forall n, n ∈ nums ->
     exists r, r ∈ seats db /\ flight_id r = flightID /\ seat_number r = n) /\
  (forall r, r ∈ seats db -> inFlightSeats flightID nums r -> takeable (goNow env) r = true) /\
  db' = withSeats db (sqlUpdate (inFlightSeats flightID nums)
                        (setReserved orderID userID (sqlNow env)) (seats db)).
Proof.
  intros H. apply inTx_committed in H as (_ & _ & H).
  destruct nums as [|n0 nums]; [done|]. split; [done|].
  rewrite lockCheckReserve_run in H.
  destruct (lock_query_fails _); [done|].
  destruct (scanLocked _ _ _ _) as [e|fs] eqn:Hscan; [done|].
  destruct (verifyExist _ _ _) eqn:Hver; [done|].
  destruct (reserve_exec_fails _); [done|].
  simplify_eq. apply scanLocked_inr in Hscan as [Hall Hfound].
  rewrite verifyExist_None in Hver. split_and!; [| |done].
  - intros n Hn. apply Hver, Hfound in Hn as [Hn|Hn]; [by rewrite found_empty in Hn|].
    apply list_elem_of_fmap in Hn as (r & -> & Hr).
    apply list_elem_of_filter in Hr as [[Hf _] Hr]. eauto.
  - intros r Hr HP. rewrite Forall_forall in Hall. apply Hall.
    by apply list_elem_of_filter.
Qed.


(** A hold that is not older than the cutoff is not takeable. *)
Lemma fresh_hold_not_takeable (now at_ : Z) (r : SeatRow) :
  status r = SeatReserved -> reserved_at r = Some at_ -> now - at_ <= staleAfter ->
  takeable now r = false.
Proof.
  intros Hs Ha Hfresh. unfold takeable. rewrite Hs, Ha.
  apply bool_decide_eq_false. unfold GoTime.Since, GoTime.Sub.
  assert (staleAfter < GoTime.maxDuration) by done.
  assert (GoTime.minDuration < 0) by done.
  assert (0 < staleAfter) by done.
  repeat case_bool_decide; lia.
Qed.

(** No double hold.  After a ReserveSeats that returned nil, a later
    ReserveSeats on the same flight that asks for any of the same seats within
    15 minutes of the first one's timestamp, by whatever order, fails with
    ErrSeatNotAvailable and changes nothing. *)
Theorem ReserveSeats_no_double_hold (env env2 : Env) (flightID : string)
    (nums nums2 : list string) (orderID userID orderID2 userID2 : string)
    (db db1 : DB) (n : string) :
  ReserveSeats env flightID nums orderID userID db = (Returned None, db1) ->
  begin_fails (faults env2) = false ->
  lock_query_fails (faults env2) = false ->
  n ∈ nums -> n ∈ nums2 ->
  goNow env2 - sqlNow env <= staleAfter ->
  exists e,
    ReserveSeats env2 flightID nums2 orderID2 userID2 db1 = (Returned (Some e), db1) /\
    Is e ErrSeatNotAvailable = true.
Proof.
  intros H Hb Hl Hn Hn2 Hfresh.
  apply ReserveSeats_committed in H as (_ & Hexist & _ & ->).
  destruct (Hexist n Hn) as (r & Hr & Hf & Hnum).
  set (r1 := setReserved orderID userID (sqlNow env) r).
  assert (Hr1 : r1 ∈ seats (withSeats db (sqlUpdate (inFlightSeats flightID nums)
                              (setReserved orderID userID (sqlNow env)) (seats db)))).
  { apply list_elem_of_fmap. exists r. split; [|done].
    rewrite decide_True; [done|]. split; [done|]. by rewrite Hnum. }
  assert (Ht : takeable (goNow env2) r1 = false)
    by (by apply (fresh_hold_not_takeable _ (sqlNow env))).
  assert (Hn2' : seat_number r1 ∈ nums2) by (simpl; by rewrite Hnum).
  destruct (ReserveSeats_not_takeable env2 nums2 orderID2 userID2 _ r1 Hb Hl Hr1 Hn2' Ht)
    as (r' & _ & _ & _ & Hres).
  simpl in Hres. rewrite Hf in Hres. rewrite Hres. by eexists.
Qed.

Lemma ReserveSeats_no_double_hold_witness :
  exists e,
    ReserveSeats (envAt (t0 + 2 * GoTime.Minute)) "FL123" ["B5"; "A1"] "O2" "bob"
      (ReserveSeats sampleEnv "FL123" ["A1"] "O1" "alice" sampleDB).2
    = (Returned (Some e), (ReserveSeats sampleEnv "FL123" ["A1"] "O1" "alice" sampleDB).2) /\
    Is e ErrSeatNotAvailable = true.
Proof.
  apply (ReserveSeats_no_double_hold sampleEnv (envAt (t0 + 2 * GoTime.Minute)) "FL123"
           ["A1"] ["B5"; "A1"] "O1" "alice" "O2" "bob" sampleDB _ "A1").
  - vm_compute. reflexivity.
  - reflexivity.
  - reflexivity.
  - by_evaluation.
  - by_evaluation.
  - vm_compute. discriminate.
Defined.

(** ** Release and confirmation *)

Lemma sqlUpdate_none (P : SeatRow -> Prop) `{!forall r, Decision (P r)}
    (f : SeatRow -> SeatRow) (rows : list SeatRow) :
  (forall r, r ∈ rows -> ~ P r) -> sqlUpdate P f rows = rows.
Proof.
  intros HP. unfold sqlUpdate. induction rows as [|r rows IH]; [done|].
  rewrite fmap_cons, IH.
  - rewrite decide_False; [done|]. apply HP, elem_of_cons. by left.
  - intros r' Hr'. apply HP, elem_of_cons. by right.
Qed.

Lemma sqlUpdate_elem (P : SeatRow -> Prop) `{!forall r, Decision (P r)}
    (f : SeatRow -> SeatRow) (rows : list SeatRow) (r' : SeatRow) :
  r' ∈ sqlUpdate P f rows <->
  exists r, r ∈ rows /\ ((P r /\ r' = f r) \/ (~ P r /\ r' = r)).
Proof.
  unfold sqlUpdate. rewrite list_elem_of_fmap. split.
  - intros (r & -> & Hr). exists r. split; [done|]. destruct (decide (P r)); auto.
  - intros (r & Hr & [[HP ->]|[HP ->]]); exists r; split; try done.
    + by rewrite decide_True.
    + by rewrite decide_False.
Qed.

(** The rows an order owns after an UPDATE that rewrites rows to [f r], when
    [f] gives or takes ownership only as [owns] says. *)
Lemma ownedRows_sqlUpdate (P : SeatRow -> Prop) `{!forall r, Decision (P r)}
    (f : SeatRow -> SeatRow) (orderID : string) (db : DB) :
  (forall r, P r -> (ownedBy orderID (f r) <-> ownedBy orderID r)) ->
  ownedRows orderID (withSeats db (sqlUpdate P f (seats db)))
  = (fun r => if decide (P r) then f r else r) <$> ownedRows orderID db.
Proof.
  intros Hf. unfold ownedRows, sqlSelect, sqlUpdate. simpl.
  induction (seats db) as [|r rows IH]; [done|].
  rewrite fmap_cons, !filter_cons, IH.
  destruct (decide (P r)) as [HP|HP].
  - destruct (decide (ownedBy orderID r)) as [Ho|Ho].
    + rewrite decide_True by by apply Hf. rewrite fmap_cons. by rewrite decide_True.
    + rewrite decide_False; [done|]. intros Ho'. by apply Ho, Hf.
  - destruct (decide (ownedBy orderID r)); [|done]. rewrite fmap_cons. by rewrite decide_False.
Qed.

Lemma ownedRows_released_other (orderID other : string) (db : DB) :
  other <> orderID ->
  ownedRows other (withSeats db (sqlUpdate (ownedBy orderID) setAvailable (seats db)))
  = ownedRows other db.
Proof.
  intros Hne. unfold ownedRows, sqlSelect, sqlUpdate. simpl.
  induction (seats db) as [|r rows IH]; [done|].
  rewrite fmap_cons, !filter_cons, IH.
  destruct (decide (ownedBy orderID r)) as [Ho|Ho]; [|done].
  rewrite decide_False by done. rewrite decide_False; [done|].
  unfold ownedBy in *. rewrite Ho. congruence.
Qed.

Lemma ownedRows_released (orderID : string) (db : DB) :
  ownedRows orderID (withSeats db (sqlUpdate (ownedBy orderID) setAvailable (seats db))) = [].
Proof.
  unfold ownedRows, sqlSelect, sqlUpdate. simpl.
  induction (seats db) as [|r rows IH]; [done|].
  rewrite fmap_cons, filter_cons, IH.
  destruct (decide (ownedBy orderID r)) as [Ho|Ho]; by rewrite decide_False.
Qed.

(** ReleaseSeats, when it returns nil, leaves the order owning no row: each
    row it owned, RESERVED or BOOKED, is AVAILABLE with its hold fields
    cleared, and every other row is as before, so what any other order owns
    is untouched.  Releasing again changes nothing.  When it returns an error
    the tables are as they were. *)
Theorem ReleaseSeats_result (env : Env) (orderID : string) (db : DB) :
  match ReleaseSeats env orderID db with
  | (Returned None, db') =>
      ownedRows orderID db' = [] /\
      (forall r', r' ∈ seats db' <->
         exists r, r ∈ seats db /\
           ((reserved_by r = Some orderID /\ r' = setAvailable r) \/
            (reserved_by r <> Some orderID /\ r' = r))) /\
      (forall other, other <> orderID -> ownedRows other db' = ownedRows other db) /\
      orders db' = orders db /\
      (forall env', exec_fails (faults env') = false ->
         ReleaseSeats env' orderID db' = (Returned None, db'))
  | (_, db') => db' = db
  end.
Proof.
  unfold ReleaseSeats. destruct (exec_fails (faults env)); [done|]. split_and!.
  - apply ownedRows_released.
  - intros r'. apply sqlUpdate_elem.
  - intros other Hne. by apply ownedRows_released_other.
  - done.
  - intros env' ->. f_equal. unfold withSeats. simpl. f_equal.
    apply sqlUpdate_none. intros r Hr Ho.
    pose proof (ownedRows_released orderID db) as Hnone.
    assert (r ∈ ownedRows orderID
                  (withSeats db (sqlUpdate (ownedBy orderID) setAvailable (seats db))))
      as Hin by (by apply list_elem_of_filter).
    rewrite Hnone in Hin. by apply elem_of_nil in Hin.
Qed.

(** ConfirmSeats, when it returns nil, has marked exactly the rows of the
    order BOOKED and kept who owns them, for which user and since when; every
    other row is as before.  Confirming again changes nothing, and an error
    leaves the tables as they were. *)
Theorem ConfirmSeats_result (env : Env) (orderID : string) (db : DB) :
  match ConfirmSeats env orderID db with
  | (Returned None, db') =>
      ownedRows orderID db' = setBooked <$> ownedRows orderID db /\
      heldSeats orderID db' = heldSeats orderID db /\
      (forall r', r' ∈ seats db' <->
         exists r, r ∈ seats db /\
           ((reserved_by r = Some orderID /\ r' = setBooked r) \/
            (reserved_by r <> Some orderID /\ r' = r))) /\
      orders db' = orders db /\
      (forall env', exec_fails (faults env') = false ->
         ConfirmSeats env' orderID db' = (Returned None, db'))
  | (_, db') => db' = db
  end.
Proof.
  unfold ConfirmSeats. destruct (exec_fails (faults env)); [done|].
  assert (Howned : ownedRows orderID
                     (withSeats db (sqlUpdate (ownedBy orderID) setBooked (seats db)))
                   = setBooked <$> ownedRows orderID db).
  { rewrite ownedRows_sqlUpdate by done. apply list_fmap_ext.
    intros i r Hi. apply list_elem_of_lookup_2, list_elem_of_filter in Hi as [Ho _].
    by rewrite decide_True. }
  split_and!.
  - done.
  - unfold heldSeats. rewrite Howned, <- list_fmap_compose. done.
  - intros r'. apply sqlUpdate_elem.
  - done.
  - intros env' ->. f_equal. unfold withSeats. simpl. f_equal.
    unfold sqlUpdate. rewrite <- list_fmap_compose. apply list_fmap_ext.
    intros i r _. simpl. destruct (decide (ownedBy orderID r)) as [Ho|Ho].
    + by rewrite decide_True.
    + by rewrite decide_False.
Qed.



(** A confirmed seat is never reclaimed.  After a ConfirmSeats that returned
    nil, a ReserveSeats that asks for a seat the order held fails with
    ErrSeatNotAvailable and changes nothing, whatever the clock reads. *)
Theorem ConfirmSeats_then_ReserveSeats (env env2 : Env) (orderID : string)
    (flightID n : string) (nums : list string) (orderID2 userID2 : string) (db db1 : DB) :
  ConfirmSeats env orderID db = (Returned None, db1) ->
  (flightID, n) ∈ heldSeats orderID db ->
  n ∈ nums ->
  begin_fails (faults env2) = false ->
  lock_query_fails (faults env2) = false ->
  exists e,
    ReserveSeats env2 flightID nums orderID2 userID2 db1 = (Returned (Some e), db1) /\
    Is e ErrSeatNotAvailable = true.
Proof.
  unfold ConfirmSeats. destruct (exec_fails (faults env)); [done|].
  intros H Hheld Hn Hb Hl. simplify_eq.
  apply heldSeats_elem in Hheld as (r & Hr & Ho & Hf & Hnum).
  assert (Hr1 : setBooked r ∈ seats (withSeats db
                  (sqlUpdate (ownedBy orderID) setBooked (seats db)))).
  { apply sqlUpdate_elem. exists r. split; [done|]. by left. }
  assert (Hn' : seat_number (setBooked r) ∈ nums) by (simpl; by rewrite Hnum).
  destruct (ReserveSeats_not_takeable env2 nums orderID2 userID2 _ (setBooked r)
              Hb Hl Hr1 Hn' eq_refl) as (r' & _ & _ & _ & Hres).
  simpl in Hres. rewrite Hf in Hres. rewrite Hres. by eexists.
Qed.

Lemma ConfirmSeats_then_ReserveSeats_witness :
  exists e,
    ReserveSeats (envAt (t0 + 1000 * GoTime.Hour)) "FL123" ["A5"] "O2" "bob"
      (ConfirmSeats sampleEnv "O1" sampleDB).2
    = (Returned (Some e), (ConfirmSeats sampleEnv "O1" sampleDB).2) /\
    Is e ErrSeatNotAvailable = true.
Proof.
  apply (ConfirmSeats_then_ReserveSeats sampleEnv (envAt (t0 + 1000 * GoTime.Hour))
           "O1" "FL123" "A5" ["A5"] "O2" "bob" sampleDB).
  - vm_compute. reflexivity.
  - by_evaluation.
  - by_evaluation.
  - reflexivity.
  - reflexivity.
Defined.

(** ** More on UpdateSeats *)

(** What UpdateSeats does once the transaction is open and the order row is
    read. *)
Lemma UpdateSeats_run (env : Env) (orderID : string) (oldSeats newSeats : list string)
    (db : DB) (o : OrderRow) :
  begin_fails (faults env) = false ->
  order_query_fails (faults env) = false ->
  release_exec_fails (faults env) = false ->
  orderRow orderID db = Some o ->
  UpdateSeats env orderID oldSeats newSeats db =
  match reserveNew env (o_flight_id o) newSeats orderID (o_user_id o)
          (withSeats db (sqlUpdate (ownedAmong orderID oldSeats) setAvailable (seats db))) with
  | TxOk _ view =>
      if commit_fails (faults env) then (Returned (Some badConn), db)
      else (Returned None, view)
  | TxFail e _ => (Returned (Some e), db)
  | TxPanic msg _ => (Panicked msg, db)
  end.
Proof.
  intros Hb Hq Hrel Ho.
  unfold UpdateSeats, inTx, UpdateSeatsBody, tx_bind.
  by rewrite Hb, orderInfo_run, Hq, Ho, releaseOld_run, Hrel, andb_false_r.
Qed.

(** With no new seats, UpdateSeats is a release: when the old seats list
    every seat the order owns, the call does exactly what ReleaseSeats does. *)
Theorem UpdateSeats_no_new_seats (env : Env) (orderID : string) (oldSeats : list string)
    (db : DB) (o : OrderRow) :
  faults env = noFaults ->
  orderRow orderID db = Some o ->
  (forall r, r ∈ ownedRows orderID db -> seat_number r ∈ oldSeats) ->
  UpdateSeats env orderID oldSeats [] db = ReleaseSeats env orderID db.
Proof.
  intros Hf Ho Hall.
  rewrite (UpdateSeats_run env orderID oldSeats [] db o) by (by rewrite ?Hf).
  unfold ReleaseSeats. rewrite Hf. simpl. do 2 f_equal.
  unfold sqlUpdate. apply list_fmap_ext. intros i r Hi.
  apply list_elem_of_lookup_2 in Hi.
  destruct (decide (ownedBy orderID r)) as [Hown|Hown].
  - rewrite decide_True; [done|]. split; [done|]. apply Hall. by apply list_elem_of_filter.
  - rewrite decide_False; [done|]. by intros [? _].
Qed.

Lemma UpdateSeats_no_new_seats_witness :
  UpdateSeats sampleEnv "O1" ["A5"; "A6"; "C9"] [] sampleDB = ReleaseSeats sampleEnv "O1" sampleDB.
Proof.
  apply (UpdateSeats_no_new_seats sampleEnv "O1" ["A5"; "A6"; "C9"] sampleDB
           (mkOrder "O1" "FL123" "alice" StatusSeatsReserved "O1" "run-1" t0)).
  - reflexivity.
  - reflexivity.
  - apply Forall_forall. vm_compute. repeat constructor.
Defined.

(** No double hold through UpdateSeats.  A requested new seat of the order's
    flight whose row is not takeable (BOOKED, or RESERVED within the last 15
    minutes or without timestamp) makes the call fail with a "seat ... is not
    available" error and change nothing, unless the release step has freed
    the row: the caller owns it and lists it among the old seats. *)
Theorem UpdateSeats_not_takeable (env : Env) (orderID : string)
    (oldSeats newSeats : list string) (db : DB) (o : OrderRow) (r : SeatRow) :
  begin_fails (faults env) = false ->
  order_query_fails (faults env) = false ->
  release_exec_fails (faults env) = false ->
  lock_query_fails (faults env) = false ->
  orderRow orderID db = Some o ->
  r ∈ seats db -> flight_id r = o_flight_id o -> seat_number r ∈ newSeats ->
  takeable (goNow env) r = false ->
  ~ ownedAmong orderID oldSeats r ->
  exists n,
    UpdateSeats env orderID oldSeats newSeats db
    = (Returned (Some (fmt_Errorf ("seat " +:+ n +:+ " is not available"))), db).
Proof.
  intros Hb Hq Hrel Hl Ho Hr Hf Hn Ht Hown.
  rewrite (UpdateSeats_run env orderID oldSeats newSeats db o) by done.
  destruct (reserveNew_run env (o_flight_id o) newSeats orderID (o_user_id o)
              (withSeats db (sqlUpdate (ownedAmong orderID oldSeats) setAvailable (seats db))))
    as [[-> _]|[_ ->]]; [by apply elem_of_nil in Hn|].
  rewrite lockCheckReserve_run, Hl. simpl.
  assert (Hlocked : r ∈ sqlSelect (inFlightSeats (o_flight_id o) newSeats)
                        (sqlUpdate (ownedAmong orderID oldSeats) setAvailable (seats db))).
  { apply list_elem_of_filter. split; [by split|]. by apply released_keeps. }
  destruct (scanLocked_some (goNow env)
              (fun seatNumber => fmt_Errorf ("seat " +:+ seatNumber +:+ " is not available"))
              _ ∅ r Hlocked Ht) as (r' & _ & _ & ->).
  by eexists.
Qed.

Lemma UpdateSeats_not_takeable_witness :
  exists n,
    UpdateSeats sampleEnv "O1" ["A5"; "A6"] ["B5"; "A7"] sampleDB
    = (Returned (Some (fmt_Errorf ("seat " +:+ n +:+ " is not available"))), sampleDB).
Proof.
  apply (UpdateSeats_not_takeable sampleEnv "O1" ["A5"; "A6"] ["B5"; "A7"] sampleDB
           (mkOrder "O1" "FL123" "alice" StatusSeatsReserved "O1" "run-1" t0)
           (seatOf "A7" SeatBooked (Some "O2") (Some "bob") (Some t0)));
    try reflexivity.
  - by_evaluation.
  - by_evaluation.
  - intros [Hown _]. discriminate Hown.
Defined.

(** An order id without an order row: UpdateSeats never returns nil for it,
    whatever else fails, and when the lookup itself runs the error wraps
    [sql.ErrNoRows]. *)
Theorem UpdateSeats_unknown_order (env : Env) (orderID : string)
    (oldSeats newSeats : list string) (db : DB) :
  orderRow orderID db = None ->
  exists e,
    UpdateSeats env orderID oldSeats newSeats db = (Returned (Some e), db) /\
    (begin_fails (faults env) = false -> order_query_fails (faults env) = false ->
     e = fmt_Errorf_w "failed to get order info" (sentinel sql_ErrNoRows)).
Proof.
  intros Ho. unfold UpdateSeats, inTx, UpdateSeatsBody, tx_bind.
  destruct (begin_fails _); [by eexists|].
  rewrite orderInfo_run, Ho. destruct (order_query_fails _); by eexists.
Qed.

Lemma UpdateSeats_unknown_order_witness :
  exists e,
    UpdateSeats sampleEnv "O9" ["A5"] ["B5"] sampleDB = (Returned (Some e), sampleDB) /\
    (begin_fails (faults sampleEnv) = false -> order_query_fails (faults sampleEnv) = false ->
     e = fmt_Errorf_w "failed to get order info" (sentinel sql_ErrNoRows)).
Proof.
  apply (UpdateSeats_unknown_order sampleEnv "O9" ["A5"] ["B5"] sampleDB). reflexivity.
Defined.

(** ** Invariants of the seat table *)

Lemma sqlUpdate_Forall (Q : SeatRow -> Prop) (P : SeatRow -> Prop)
    `{!forall r, Decision (P r)} (f : SeatRow -> SeatRow) (rows : list SeatRow) :
  (forall r, P r -> Q r -> Q (f r)) ->
  Forall Q rows -> Forall Q (sqlUpdate P f rows).
Proof.
  intros Hf Hall. unfold sqlUpdate. apply Forall_fmap.
  eapply Forall_impl; [exact Hall|]. intros r HQ. simpl.
  destruct (decide (P r)); auto.
Qed.

Lemma sqlUpdate_keys (P : SeatRow -> Prop) `{!forall r, Decision (P r)}
    (f : SeatRow -> SeatRow) (rows : list SeatRow) :
  (forall r, seatKey (f r) = seatKey r) ->
  seatKey <$> sqlUpdate P f rows = seatKey <$> rows.
Proof.
  intros Hf. unfold sqlUpdate. rewrite <- list_fmap_compose.
  apply list_fmap_ext. intros i r _. simpl. by destruct (decide (P r)).
Qed.

Lemma write_cases (env : Env) (w : SeatWrite) (db : DB) :
  (write env w db).2 = db \/
  exists (P : SeatRow -> Prop) (HP : forall r, Decision (P r)) (f : SeatRow -> SeatRow),
    (f = setAvailable \/ (exists o u t, f = setReserved o u t) \/
     (f = setBooked /\ forall r, P r -> reserved_by r <> None)) /\
    ((write env w db).2 = withSeats db (sqlUpdate P f (seats db)) \/
     exists (P0 : SeatRow -> Prop) (HP0 : forall r, Decision (P0 r)),
       (write env w db).2
       = withSeats db (sqlUpdate P f (sqlUpdate P0 setAvailable (seats db)))).
Proof.
  destruct w as [flightID nums orderID userID|orderID|orderID oldSeats newSeats|orderID|flightID];
    simpl.
  - destruct (ReserveSeats env flightID nums orderID userID db) as [out db'] eqn:H.
    destruct out as [[e|]|msg]; simpl;
      [left; by eapply inTx_unchanged| |left; by eapply inTx_unchanged].
    apply ReserveSeats_committed in H as (_ & _ & _ & ->).
    right. eexists _, _, _. split; [|by left]. right. left. eauto.
  - unfold ReleaseSeats. destruct (exec_fails _); [by left|]. right.
    eexists _, _, _. split; [by left|]. by left.
  - destruct (UpdateSeats env orderID oldSeats newSeats db) as [out db'] eqn:H.
    destruct out as [[e|]|msg]; simpl;
      [left; by eapply inTx_unchanged| |left; by eapply inTx_unchanged].
    apply UpdateSeats_committed in H as (o & _ & -> & _).
    right. eexists _, _, _. split; [right; left; eauto|].
    right. by eexists _, _.
  - unfold ConfirmSeats. destruct (exec_fails _); [by left|]. right.
    eexists (ownedBy orderID), _, _. split; [right; right; split; [done|]|by left].
    intros r Ho. unfold ownedBy in Ho. by rewrite Ho.
  - unfold ResetFlightSeats. destruct (exec_fails _); [by left|]. right.
    eexists _, _, _. split; [by left|]. by left.
Qed.

(** The row invariants are kept.  If every seat row is well formed (an
    AVAILABLE row has no owner, user or timestamp; a RESERVED or BOOKED row
    has an owner), it still is after ReserveSeats, ReleaseSeats, UpdateSeats,
    ConfirmSeats or ResetFlightSeats, however the call ends. *)
Theorem seat_writes_keep_rows_well_formed (env : Env) (w : SeatWrite) (db : DB) :
  Forall rowOK (seats db) -> Forall rowOK (seats (write env w db).2).
Proof.
  intros Hall.
  destruct (write_cases env w db) as [->|(P & HP & f & Hf & Hres)]; [done|].
  assert (Hstep : forall rows, Forall rowOK rows -> Forall rowOK (sqlUpdate P f rows)).
  { intros rows. apply sqlUpdate_Forall. intros r HPr Hr.
    destruct Hf as [->|[(o & u & t & ->)|[-> Hown]]]; try done.
    unfold rowOK in *. simpl. specialize (Hown r HPr).
    by destruct (status r). }
  destruct Hres as [->|(P0 & HP0 & ->)]; simpl.
  - by apply Hstep.
  - apply Hstep. by apply sqlUpdate_Forall.
Qed.

Lemma seat_writes_keep_rows_well_formed_witness :
  Forall rowOK (seats (write sampleEnv (WUpdate "O1" ["A5"; "A6"] ["B5"]) sampleDB).2).
Proof.
  apply (seat_writes_keep_rows_well_formed sampleEnv (WUpdate "O1" ["A5"; "A6"] ["B5"]) sampleDB).
  repeat constructor; discriminate.
Defined.

(** No method that writes the seat table adds or removes a row, or changes a
    row's id, flight or seat number; and none of them touches the orders. *)
Theorem seat_writes_keep_keys (env : Env) (w : SeatWrite) (db : DB) :
  seatKey <$> seats (write env w db).2 = seatKey <$> seats db /\
  orders (write env w db).2 = orders db.
Proof.
  destruct (write_cases env w db) as [->|(P & HP & f & Hf & Hres)]; [done|].
  assert (Hkey : forall r, seatKey (f r) = seatKey r).
  { destruct Hf as [->|[(o & u & t & ->)|[-> _]]]; done. }
  destruct Hres as [->|(P0 & HP0 & ->)]; simpl.
  - by rewrite sqlUpdate_keys.
  - by rewrite !sqlUpdate_keys.
Qed.

(** ** The order store *)

Lemma GetOrder_orderRow (env : Env) (orderID : string) (db : DB) :
  exec_fails (faults env) = false ->
  GetOrder env orderID db
  = match orderRow orderID db with
    | Some o => inr o
    | None => inl (errors_New "order not found")
    end.
Proof.
  intros Hexec. unfold GetOrder, orderRow. rewrite Hexec.
  by destruct (filter _ (orders db)).
Qed.




(** Insert, then look up.  CreateOrder for an id that has a row fails on the
    primary key and changes nothing.  For a new id it returns nil; GetOrder
    then gives the inserted order with the server's time, other lookups and
    the seat table are as before, and inserting the same id again fails. *)
Theorem CreateOrder_then_GetOrder (env env' : Env) (order : OrderRow) (db : DB) :
  exec_fails (faults env) = false ->
  exec_fails (faults env') = false ->
  if bool_decide (order_id order ∈ order_id <$> orders db)
  then exists e, CreateOrder env order db = (Returned (Some e), db)
  else exists db',
    CreateOrder env order db = (Returned None, db') /\
    GetOrder env' (order_id order) db'
    = inr (mkOrder (order_id order) (o_flight_id order) (o_user_id order) (o_status order)
                   (workflow_id order) (run_id order) (sqlNow env)) /\
    (forall id, id <> order_id order -> GetOrder env' id db' = GetOrder env' id db) /\
    seats db' = seats db /\
    exists e, CreateOrder env' order db' = (Returned (Some e), db').
Proof.
  intros Hexec Hexec'. unfold CreateOrder. rewrite Hexec.
  case_bool_decide as Hin; [by eexists|].
  eexists. split; [reflexivity|].
  assert (Hnone : filter (fun o => order_id o = order_id order) (orders db) = []).
  { destruct (filter _ (orders db)) as [|o os] eqn:Hfil; [done|]. destruct Hin.
    assert (o ∈ filter (fun o0 => order_id o0 = order_id order) (orders db)) as Ho
      by (rewrite Hfil; apply elem_of_cons; by left).
    apply list_elem_of_filter in Ho as [<- Ho]. apply list_elem_of_fmap. eauto. }
  split_and!; [| |done|].
  - rewrite GetOrder_orderRow by done. unfold orderRow. simpl.
    rewrite filter_app, Hnone. simpl. rewrite filter_cons. simpl.
    by rewrite decide_True.
  - intros id Hne. rewrite !GetOrder_orderRow by done. unfold orderRow. simpl.
    rewrite filter_app, filter_cons. simpl. rewrite decide_False by done.
    by rewrite filter_nil, app_nil_r.
  - rewrite Hexec'. simpl. rewrite bool_decide_eq_true_2; [by eexists|].
    rewrite fmap_app. apply elem_of_app. right. apply elem_of_cons. by left.
Qed.

Lemma CreateOrder_then_GetOrder_witness :
  let order := mkOrder "O3" "FL123" "carol" StatusCreated "O3" "run-3" 0 in
  if bool_decide (order_id order ∈ order_id <$> orders sampleDB)
  then exists e, CreateOrder sampleEnv order sampleDB = (Returned (Some e), sampleDB)
  else exists db',
    CreateOrder sampleEnv order sampleDB = (Returned None, db') /\
    GetOrder sampleEnv (order_id order) db'
    = inr (mkOrder (order_id order) (o_flight_id order) (o_user_id order) (o_status order)
                   (workflow_id order) (run_id order) (sqlNow sampleEnv)) /\
    (forall id, id <> order_id order -> GetOrder sampleEnv id db' = GetOrder sampleEnv id sampleDB) /\
    seats db' = seats sampleDB /\
    exists e, CreateOrder sampleEnv order db' = (Returned (Some e), db').
Proof.
  apply (CreateOrder_then_GetOrder sampleEnv sampleEnv
           (mkOrder "O3" "FL123" "carol" StatusCreated "O3" "run-3" 0) sampleDB);
    reflexivity.
Defined.

(** ** Resetting a flight *)


(** * Further properties of the booking workflow *)

(** The loop over two batches of turns. *)
Lemma eventLoop_app (cfg : Config) (runID : string) (pre more : list Turn) (l : Loop) :
  eventLoop cfg runID (pre ++ more) l
  = match eventLoop cfg runID pre l with
    | (l', true) => (l', true)
    | (l', false) => eventLoop cfg runID more l'
    end.
Proof.
  revert l. induction pre as [|t pre IH]; intros l; simpl; [done|].
  destruct (exitCondition (handle cfg runID t l)); [done|]. apply IH.
Qed.

Lemma handle_identity (cfg : Config) (runID : string) (t : Turn) (l : Loop) :
  OrderID (state (handle cfg runID t l)) = OrderID (state l) /\
  FlightID (state (handle cfg runID t l)) = FlightID (state l) /\
  UserID (state (handle cfg runID t l)) = UserID (state l) /\
  PaymentAttempts (state (handle cfg runID t l)) = PaymentAttempts (state l).
Proof.
  destruct t as [newSeats [e|] now|code childErr res [e|]|[e|]|[e'|] [e|]]; simpl;
    unfold onUpdateSeats, onSubmitPayment, onCancelOrder, onTimer, releaseThenPush;
    simpl; try done; by destruct (_ && _).
Qed.

(** What one serviced turn does to a waiting loop. *)
Lemma handle_waiting (cfg : Config) (runID : string) (t : Turn) (l : Loop) :
  waiting l ->
  match t with
  | RecvUpdateSeats newSeats updateErr now =>
      waiting (handle cfg runID t l) /\
      state (handle cfg runID t l)
      = match updateErr with
        | Some _ => state l
        | None => withSeatsAt newSeats now (state l)
        end
  | RecvSubmitPayment _ childErr res releaseErr =>
      if bool_decide (childErr = None) && Success res
      then Status (state (handle cfg runID t l)) = StatusConfirmed /\
           workflowErr (handle cfg runID t l) = None
      else Status (state (handle cfg runID t l)) = StatusFailed /\
           workflowErr (handle cfg runID t l) = releaseFailure releaseErr
  | RecvCancelOrder releaseErr =>
      Status (state (handle cfg runID t l)) = StatusCancelled /\
      workflowErr (handle cfg runID t l) = releaseFailure releaseErr
  | TimerReady (Some _) _ => handle cfg runID t l = l
  | TimerReady None releaseErr =>
      Status (state (handle cfg runID t l)) = StatusExpired /\
      workflowErr (handle cfg runID t l) = releaseFailure releaseErr
  end.
Proof.
  intros [Hs He].
  destruct t as [newSeats [e|] now|code childErr res [e|]|[e|]|[e'|] [e|]]; simpl;
    unfold onUpdateSeats, onSubmitPayment, onCancelOrder, onTimer, releaseThenPush, waiting;
    simpl; try done; try (by destruct (_ && _)).
Qed.

Lemma waiting_not_exit (l : Loop) : waiting l -> exitCondition l = false.
Proof.
  intros [Hs He]. unfold exitCondition. rewrite Hs, He. done.
Qed.

Lemma terminal_exit (l : Loop) : terminal (Status (state l)) = true -> exitCondition l = true.
Proof. intros H. unfold exitCondition. by rewrite H. Qed.

(** One turn serviced from a waiting loop: it either keeps waiting or leaves
    with a terminal status. *)
Lemma handle_waiting_or_terminal (cfg : Config) (runID : string) (t : Turn) (l : Loop) :
  waiting l ->
  (exitCondition (handle cfg runID t l) = false /\ waiting (handle cfg runID t l)) \/
  (exitCondition (handle cfg runID t l) = true /\
   terminal (Status (state (handle cfg runID t l))) = true).
Proof.
  intros Hw. pose proof (handle_waiting cfg runID t l Hw) as H.
  destruct t as [newSeats updateErr now|code childErr res releaseErr|releaseErr
                |[e'|] releaseErr].
  - left. destruct H as [H _]. split; [by apply waiting_not_exit|done].
  - right. destruct (_ && _); destruct H as [Hs _];
      (split; [apply terminal_exit|]; by rewrite Hs).
  - right. destruct H as [Hs _]. split; [apply terminal_exit|]; by rewrite Hs.
  - left. rewrite H. split; [by apply waiting_not_exit|done].
  - right. destruct H as [Hs _]. split; [apply terminal_exit|]; by rewrite Hs.
Qed.

Lemma eventLoop_waiting (cfg : Config) (runID : string) (turns : list Turn)
    (l l' : Loop) (left_ : bool) :
  waiting l ->
  eventLoop cfg runID turns l = (l', left_) ->
  if left_ then terminal (Status (state l')) = true else waiting l'.
Proof.
  revert l. induction turns as [|t turns IH]; intros l Hw H; simpl in H.
  - by simplify_eq.
  - destruct (handle_waiting_or_terminal cfg runID t l Hw) as [[Hx Hw']|[Hx Ht]];
      rewrite Hx in H.
    + by eapply IH.
    + by simplify_eq.
Qed.

Lemma eventLoop_identity (cfg : Config) (runID : string) (turns : list Turn)
    (l l' : Loop) (left_ : bool) :
  eventLoop cfg runID turns l = (l', left_) ->
  OrderID (state l') = OrderID (state l) /\
  FlightID (state l') = FlightID (state l) /\
  UserID (state l') = UserID (state l) /\
  PaymentAttempts (state l') = PaymentAttempts (state l).
Proof.
  revert l. induction turns as [|t turns IH]; intros l H; simpl in H.
  - by simplify_eq.
  - pose proof (handle_identity cfg runID t l) as (H1 & H2 & H3 & H4).
    destruct (exitCondition (handle cfg runID t l)).
    + by simplify_eq.
    + apply IH in H as (? & ? & ? & ?). split_and!; congruence.
Qed.


Lemma BookingWorkflow_entered (cfg : Config) (runID : string) (input : BookingInput)
    (now0 now1 : Z) (turns : list Turn) :
  BookingWorkflow cfg runID input now0 None now1 turns
  = match eventLoop cfg runID turns (enteredLoop cfg input now1) with
    | (l', true) => mkRun (state l') (Completed (workflowErr l')) (effects l')
    | (l', false) => mkRun (state l') Waiting (effects l')
    end.
Proof. reflexivity. Qed.

Lemma enteredLoop_waiting (cfg : Config) (input : BookingInput) (now1 : Z) :
  waiting (enteredLoop cfg input now1).
Proof. done. Qed.

(** A run that is waiting has entered the loop and not left it. *)
Lemma BookingWorkflow_waiting (cfg : Config) (runID : string) (input : BookingInput)
    (now0 : Z) (reserveErr : option error) (now1 : Z) (turns : list Turn) :
  completion (BookingWorkflow cfg runID input now0 reserveErr now1 turns) = Waiting ->
  reserveErr = None /\
  exists l, eventLoop cfg runID turns (enteredLoop cfg input now1) = (l, false) /\ waiting l.
Proof.
  destruct reserveErr as [e|]; [done|]. rewrite BookingWorkflow_entered.
  destruct (eventLoop _ _ _ _) as [l [|]] eqn:Hloop; [done|]. intros _.
  split; [done|]. exists l. split; [done|].
  by apply (eventLoop_waiting _ _ _ _ _ _ (enteredLoop_waiting cfg input now1) Hloop).
Qed.

(** The status of a run tells whether it has returned.  A run that is still
    waiting has status SEATS_RESERVED; a run that has returned has one of the
    four terminal statuses; CREATED and PAYMENT_PENDING are never the status
    of a run at rest.  The order, flight and user of the state are those of
    the input throughout, and the payment attempts counter stays 0. *)
Theorem BookingWorkflow_invariant (cfg : Config) (runID : string) (input : BookingInput)
    (now0 : Z) (reserveErr : option error) (now1 : Z) (turns : list Turn) :
  let r := BookingWorkflow cfg runID input now0 reserveErr now1 turns in
  OrderID (result r) = in_OrderID input /\
  FlightID (result r) = in_FlightID input /\
  UserID (result r) = in_UserID input /\
  PaymentAttempts (result r) = 0 /\
  match completion r with
  | Waiting => reserveErr = None /\ Status (result r) = StatusSeatsReserved
  | Completed _ => terminal (Status (result r)) = true
  end.
Proof.
  destruct reserveErr as [e|]; [done|]. cbv zeta. rewrite BookingWorkflow_entered.
  destruct (eventLoop _ _ _ _) as [l left_] eqn:Hloop.
  pose proof (eventLoop_identity _ _ _ _ _ _ Hloop) as (H1 & H2 & H3 & H4).
  pose proof (eventLoop_waiting _ _ _ _ _ _ (enteredLoop_waiting cfg input now1) Hloop) as Hw.
  destruct left_; simpl; split_and!; try done. by destruct Hw.
Qed.

(** The turn after a wait.  From a run that is waiting, a seat update keeps
    it waiting, and changes the state only when the activity succeeded (new
    seats, hold restarted at the time of the update); a cancelled timer
    changes nothing at all; a cancellation, an expired timer and a payment
    each end the run, as CANCELLED, EXPIRED, and CONFIRMED or FAILED, and the
    run returns an error exactly when the release it asked for failed. *)
Theorem BookingWorkflow_next_turn (cfg : Config) (runID : string) (input : BookingInput)
    (now0 : Z) (reserveErr : option error) (now1 : Z) (pre : list Turn) (t : Turn) :
  completion (BookingWorkflow cfg runID input now0 reserveErr now1 pre) = Waiting ->
  let r0 := BookingWorkflow cfg runID input now0 reserveErr now1 pre in
  let r := BookingWorkflow cfg runID input now0 reserveErr now1 (pre ++ [t]) in
  match t with
  | RecvUpdateSeats newSeats updateErr now =>
      completion r = Waiting /\
      result r = match updateErr with
                 | Some _ => result r0
                 | None => withSeatsAt newSeats now (result r0)
                 end
  | RecvSubmitPayment _ childErr res releaseErr =>
      if bool_decide (childErr = None) && Success res
      then Status (result r) = StatusConfirmed /\ completion r = Completed None
      else Status (result r) = StatusFailed /\
           completion r = Completed (releaseFailure releaseErr)
  | RecvCancelOrder releaseErr =>
      Status (result r) = StatusCancelled /\
      completion r = Completed (releaseFailure releaseErr)
  | TimerReady (Some _) _ => r = r0
  | TimerReady None releaseErr =>
      Status (result r) = StatusExpired /\
      completion r = Completed (releaseFailure releaseErr)
  end.
Proof.
  intros Hwait. apply BookingWorkflow_waiting in Hwait as (-> & l & Hloop & Hw).
  cbv zeta. rewrite !BookingWorkflow_entered, eventLoop_app, Hloop.
  cbn [eventLoop].
  pose proof (handle_waiting cfg runID t l Hw) as H.
  destruct (handle_waiting_or_terminal cfg runID t l Hw) as [[Hx Hw']|[Hx Ht]]; rewrite Hx;
    cbn [result completion].
  - destruct t as [newSeats updateErr now|code childErr res releaseErr|releaseErr
                  |[e'|] releaseErr].
    + by destruct H.
    + destruct Hw' as [Hs _]. destruct (_ && _); destruct H as [Hs' _]; congruence.
    + destruct Hw' as [Hs _]. destruct H as [Hs' _]. congruence.
    + by rewrite H.
    + destruct Hw' as [Hs _]. destruct H as [Hs' _]. congruence.
  - destruct t as [newSeats updateErr now|code childErr res releaseErr|releaseErr
                  |[e'|] releaseErr].
    + destruct H as [Hw' _]. apply waiting_not_exit in Hw'. congruence.
    + destruct (_ && _); destruct H as [Hs He]; by rewrite He.
    + destruct H as [Hs He]. by rewrite He.
    + rewrite H in Hx. apply waiting_not_exit in Hw. congruence.
    + destruct H as [Hs He]. by rewrite He.
Qed.

Lemma BookingWorkflow_next_turn_witness :
  let input := mkInput "O1" "FL123" "alice" ["A5"; "A6"] in
  let pre := [RecvUpdateSeats ["B5"] None (t0 + 20 * GoTime.Second)] in
  let r := BookingWorkflow defaultConfig "run-1" input t0 None t0
             (pre ++ [RecvCancelOrder (Some badConn)]) in
  Status (result r) = StatusCancelled /\
  completion r = Completed (releaseFailure (Some badConn)).
Proof.
  apply (BookingWorkflow_next_turn defaultConfig "run-1"
           (mkInput "O1" "FL123" "alice" ["A5"; "A6"]) t0 None t0
           [RecvUpdateSeats ["B5"] None (t0 + 20 * GoTime.Second)]
           (RecvCancelOrder (Some badConn))).
  reflexivity.
Defined.

(** What a serviced turn asks of the runtime, seen from a waiting loop in
    which the seats are not settled yet. *)
Lemma handle_settling (cfg : Config) (runID : string) (t : Turn) (l : Loop) :
  waiting l ->
  Forall (fun e => ~ settles e) (effects l) ->
  let l' := handle cfg runID t l in
  let id := OrderID (state l) in
  if exitCondition l'
  then exists pre, Forall (fun e => ~ settles e) pre /\
         if decide (Status (state l') = StatusConfirmed)
         then workflowErr l' = None /\
              effects l' = pre ++ [ActConfirmSeats id;
                                   ActUpdateOrderStatus id StatusConfirmed;
                                   ActSendConfirmation id]
         else match workflowErr l' with
              | None =>
                  effects l' = pre ++ [ActReleaseSeats id;
                                       ActUpdateOrderStatus id (Status (state l'))]
              | Some e =>
                  (exists releaseErr, e = fmt_Errorf_w "failed to release seats" releaseErr) /\
                  effects l' = pre ++ [ActReleaseSeats id]
              end
  else Forall (fun e => ~ settles e) (effects l').
Proof.
  intros [Hs He] Hq.
  assert (Hexit : exitCondition l = false) by (by apply waiting_not_exit).
  destruct l as [st we es]. simpl in *. subst we.
  destruct t as [newSeats [e|] now|code childErr res [e|]|[e|]|[e'|] [e|]];
    cbv zeta; cbn [handle];
    unfold exitCondition, onUpdateSeats, onSubmitPayment, onCancelOrder, onTimer,
      releaseThenPush, emit, setState, setWorkflowErr; simpl;
    rewrite ?Hs; simpl.
  - apply Forall_app. split; [done|]. repeat constructor. by intros [].
  - rewrite !Forall_app. split_and!; [done| |]; repeat constructor; by intros [].
  - destruct (bool_decide (childErr = None) && Success res); simpl.
    + exists (es ++ [ActUpdateOrderStatus (OrderID st) StatusPaymentPending;
                     ChildPaymentValidation (OrderID st +:+ "-payment-" +:+ runID)
                       code (OrderID st)]).
      split; [|by rewrite <- !app_assoc].
      apply Forall_app. split; [done|]. repeat constructor; by intros [].
    + exists (es ++ [ActUpdateOrderStatus (OrderID st) StatusPaymentPending;
                     ChildPaymentValidation (OrderID st +:+ "-payment-" +:+ runID)
                       code (OrderID st)]).
      split; [|split; [by eexists|by rewrite <- !app_assoc]].
      apply Forall_app. split; [done|]. repeat constructor; by intros [].
  - destruct (bool_decide (childErr = None) && Success res); simpl.
    + exists (es ++ [ActUpdateOrderStatus (OrderID st) StatusPaymentPending;
                     ChildPaymentValidation (OrderID st +:+ "-payment-" +:+ runID)
                       code (OrderID st)]).
      split; [|by rewrite <- !app_assoc].
      apply Forall_app. split; [done|]. repeat constructor; by intros [].
    + exists (es ++ [ActUpdateOrderStatus (OrderID st) StatusPaymentPending;
                     ChildPaymentValidation (OrderID st +:+ "-payment-" +:+ runID)
                       code (OrderID st)]).
      split; [|by rewrite <- !app_assoc].
      apply Forall_app. split; [done|]. repeat constructor; by intros [].
  - exists es. split; [done|]. split; [by eexists|done].
  - exists es. split; [done|]. by rewrite <- !app_assoc.
  - done.
  - done.
  - exists es. split; [done|]. split; [by eexists|done].
  - exists es. split; [done|]. by rewrite <- !app_assoc.
Qed.

Lemma eventLoop_settling (cfg : Config) (runID : string) (id : string)
    (turns : list Turn) (l l' : Loop) (left_ : bool) :
  waiting l ->
  Forall (fun e => ~ settles e) (effects l) ->
  OrderID (state l) = id ->
  eventLoop cfg runID turns l = (l', left_) ->
  if left_
  then exists pre, Forall (fun e => ~ settles e) pre /\
         if decide (Status (state l') = StatusConfirmed)
         then workflowErr l' = None /\
              effects l' = pre ++ [ActConfirmSeats id;
                                   ActUpdateOrderStatus id StatusConfirmed;
                                   ActSendConfirmation id]
         else match workflowErr l' with
              | None =>
                  effects l' = pre ++ [ActReleaseSeats id;
                                       ActUpdateOrderStatus id (Status (state l'))]
              | Some e =>
                  (exists releaseErr, e = fmt_Errorf_w "failed to release seats" releaseErr) /\
                  effects l' = pre ++ [ActReleaseSeats id]
              end
  else Forall (fun e => ~ settles e) (effects l').
Proof.
  revert l. induction turns as [|t turns IH]; intros l Hw Hq Hid H; simpl in H.
  - by simplify_eq.
  - pose proof (handle_settling cfg runID t l Hw Hq) as Hstep. cbv zeta in Hstep.
    rewrite Hid in Hstep.
    destruct (handle_waiting_or_terminal cfg runID t l Hw) as [[Hx Hw']|[Hx Ht]];
      rewrite Hx in H, Hstep.
    + apply (IH (handle cfg runID t l)); try done.
      pose proof (handle_identity cfg runID t l) as (Hid' & _). congruence.
    + by simplify_eq.
Qed.

(** A run settles its seats once, as the last thing it does.  While it waits
    it has asked for neither ReleaseSeats nor ConfirmSeats.  A run that has
    returned CONFIRMED ends with ConfirmSeats, the status push and the
    confirmation, and returns no error.  A run that has returned with any
    other status after a successful initial hold ends with ReleaseSeats
    followed by the status push, or, when the release failed, with
    ReleaseSeats alone: it then returns the wrapped release error and pushes
    no status. *)
Theorem BookingWorkflow_settles_seats (cfg : Config) (runID : string)
    (input : BookingInput) (now0 now1 : Z) (turns : list Turn) :
  let r := BookingWorkflow cfg runID input now0 None now1 turns in
  let id := in_OrderID input in
  match completion r with
  | Waiting => Forall (fun e => ~ settles e) (trace r)
  | Completed err =>
      exists pre, Forall (fun e => ~ settles e) pre /\
        if decide (Status (result r) = StatusConfirmed)
        then err = None /\
             trace r = pre ++ [ActConfirmSeats id;
                               ActUpdateOrderStatus id StatusConfirmed;
                               ActSendConfirmation id]
        else match err with
             | None =>
                 trace r = pre ++ [ActReleaseSeats id;
                                   ActUpdateOrderStatus id (Status (result r))]
             | Some e =>
                 (exists releaseErr, e = fmt_Errorf_w "failed to release seats" releaseErr) /\
                 trace r = pre ++ [ActReleaseSeats id]
             end
  end.
Proof.
  cbv zeta. rewrite BookingWorkflow_entered.
  destruct (eventLoop _ _ _ _) as [l left_] eqn:Hloop.
  assert (Hq : Forall (fun e => ~ settles e) (effects (enteredLoop cfg input now1))).
  { repeat constructor; by intros []. }
  pose proof (eventLoop_settling cfg runID (in_OrderID input) turns _ l left_
                (enteredLoop_waiting cfg input now1) Hq eq_refl Hloop) as H.
  by destruct left_.
Qed.

(** ** A failed seat update *)

Lemma handle_sameCourse (cfg : Config) (runID : string) (t : Turn) (l1 l0 : Loop) :
  sameCourse l1 l0 -> sameCourse (handle cfg runID t l1) (handle cfg runID t l0).
Proof.
  intros (Hs & He & Hf). destruct l1 as [st1 we1 es1], l0 as [st0 we0 es0].
  simpl in *. subst st1 we1.
  destruct t as [newSeats [e|] now|code childErr res [e|]|[e|]|[e'|] [e|]];
    cbn [handle];
    unfold sameCourse, onUpdateSeats, onSubmitPayment, onCancelOrder, onTimer,
      releaseThenPush, emit, setState, setWorkflowErr; simpl;
    try destruct (bool_decide (childErr = None) && Success res); simpl;
    rewrite ?filter_app, ?Hf; done.
Qed.

Lemma sameCourse_exit (l1 l0 : Loop) :
  sameCourse l1 l0 -> exitCondition l1 = exitCondition l0.
Proof. intros (Hs & He & _). unfold exitCondition. by rewrite Hs, He. Qed.

Lemma eventLoop_sameCourse (cfg : Config) (runID : string) (turns : list Turn)
    (l1 l0 : Loop) :
  sameCourse l1 l0 ->
  sameCourse (eventLoop cfg runID turns l1).1 (eventLoop cfg runID turns l0).1 /\
  (eventLoop cfg runID turns l1).2 = (eventLoop cfg runID turns l0).2.
Proof.
  revert l1 l0. induction turns as [|t turns IH]; intros l1 l0 H; simpl; [done|].
  pose proof (handle_sameCourse cfg runID t _ _ H) as H'.
  rewrite (sameCourse_exit _ _ H').
  destruct (exitCondition (handle cfg runID t l0)); [done|]. by apply IH.
Qed.

(** A seat update whose activity failed is invisible.  Wherever such a turn
    is delivered, the run ends in the same state and the same way as without
    it, and the timers armed and cancelled are the same: the state is
    unchanged and the hold timer keeps running. *)
Theorem failed_seat_update_is_invisible (cfg : Config) (runID : string)
    (input : BookingInput) (now0 : Z) (reserveErr : option error) (now1 : Z)
    (pre post : list Turn) (newSeats : list string) (err : error) (now : Z) :
  let r1 := BookingWorkflow cfg runID input now0 reserveErr now1
              (pre ++ RecvUpdateSeats newSeats (Some err) now :: post) in
  let r0 := BookingWorkflow cfg runID input now0 reserveErr now1 (pre ++ post) in
  result r1 = result r0 /\
  completion r1 = completion r0 /\
  filter (fun e => timerEffect e = true) (trace r1)
  = filter (fun e => timerEffect e = true) (trace r0).
Proof.
  destruct reserveErr as [e|]; [done|]. cbv zeta.
  rewrite !BookingWorkflow_entered, !eventLoop_app.
  destruct (eventLoop cfg runID pre (enteredLoop cfg input now1)) as [l [|]] eqn:Hpre;
    [done|].
  pose proof (eventLoop_waiting _ _ _ _ _ _ (enteredLoop_waiting cfg input now1) Hpre) as Hw.
  cbn [eventLoop].
  set (l1 := handle cfg runID (RecvUpdateSeats newSeats (Some err) now) l).
  assert (Hsame : sameCourse l1 l).
  { unfold l1, sameCourse. simpl. unfold onUpdateSeats, emit. simpl.
    split_and!; [done|done|]. by rewrite filter_app, app_nil_r. }
  rewrite (sameCourse_exit _ _ Hsame), (waiting_not_exit l Hw).
  destruct (eventLoop_sameCourse cfg runID post l1 l Hsame) as [(Hs & He & Hf) Hb].
  destruct (eventLoop cfg runID post l1) as [a b], (eventLoop cfg runID post l) as [c d].
  simpl in *. subst d. destruct b; simpl; by rewrite ?Hs, ?He.
Qed.

(** ** Payment *)

Lemma paymentTurn_cases (draws : nat -> bool * string) (paymentCode orderID : string)
    (releaseErr : option error) :
  exists childErr res,
    paymentTurn draws paymentCode orderID releaseErr
    = RecvSubmitPayment paymentCode childErr res releaseErr /\
    bool_decide (childErr = None) && Success res = paymentPasses draws paymentCode /\
    (validateAttempts (paymentMaximumAttempts - 1) 0 draws paymentCode orderID).2
    = (if PaymentActivities.fiveDigits paymentCode
       then if (draws 0%nat).1 then if (draws 1%nat).1 then 3 else 2 else 1
       else 1)%nat.
Proof.
  unfold paymentTurn, paymentPasses, paymentMaximumAttempts. simpl.
  unfold PaymentActivities.ValidatePayment.
  destruct (PaymentActivities.fiveDigits paymentCode); simpl; [|by eexists _, _].
  destruct (draws 0%nat) as [[|] tx0]; simpl; [|by eexists _, _].
  destruct (draws 1%nat) as [[|] tx1]; simpl; [|by eexists _, _].
  destruct (draws 2%nat) as [[|] tx2]; simpl; by eexists _, _.
Qed.

(** A payment decides the order.  From a waiting run, a submitted payment
    ends the run CONFIRMED when the code is five digits and one of at most
    three attempts passes the gateway, and FAILED otherwise, the error of the
    run being that of the release.  A code that is not five digits is
    validated once and never retried; a five-digit code is tried again only
    after a gateway failure. *)
Theorem payment_decides_the_order (cfg : Config) (runID : string) (input : BookingInput)
    (now0 : Z) (reserveErr : option error) (now1 : Z) (pre : list Turn)
    (draws : nat -> bool * string) (paymentCode : string) (releaseErr : option error) :
  completion (BookingWorkflow cfg runID input now0 reserveErr now1 pre) = Waiting ->
  let r := BookingWorkflow cfg runID input now0 reserveErr now1
             (pre ++ [paymentTurn draws paymentCode (in_OrderID input) releaseErr]) in
  Status (result r)
  = (if paymentPasses draws paymentCode then StatusConfirmed else StatusFailed) /\
  completion r
  = Completed (if paymentPasses draws paymentCode then None else releaseFailure releaseErr) /\
  (validateAttempts (paymentMaximumAttempts - 1) 0 draws paymentCode (in_OrderID input)).2
  = (if PaymentActivities.fiveDigits paymentCode
     then if (draws 0%nat).1 then if (draws 1%nat).1 then 3 else 2 else 1
     else 1)%nat.
Proof.
  intros Hwait. apply BookingWorkflow_waiting in Hwait as (-> & l & Hloop & Hw).
  destruct (paymentTurn_cases draws paymentCode (in_OrderID input) releaseErr)
    as (childErr & res & -> & Hpass & Hn).
  cbv zeta. split_and!; [| |done];
    rewrite BookingWorkflow_entered, eventLoop_app, Hloop; cbn [eventLoop];
    pose proof (handle_waiting cfg runID
                  (RecvSubmitPayment paymentCode childErr res releaseErr) l Hw) as H;
    cbv beta iota in H; rewrite Hpass in H;
    destruct (handle_waiting_or_terminal cfg runID
                (RecvSubmitPayment paymentCode childErr res releaseErr) l Hw)
      as [[Hx [Hs _]]|[Hx _]]; rewrite Hx; cbn [result completion];
    destruct (paymentPasses draws paymentCode); destruct H as [Hs' He]; congruence.
Qed.

Lemma payment_decides_the_order_witness :
  let input := mkInput "O1" "FL123" "alice" ["A5"; "A6"] in
  let draws := fun n : nat => (bool_decide (n = 0%nat), "tx") in
  let r := BookingWorkflow defaultConfig "run-1" input t0 None t0
             ([] ++ [paymentTurn draws "12345" (in_OrderID input) None]) in
  Status (result r)
  = (if paymentPasses draws "12345" then StatusConfirmed else StatusFailed) /\
  completion r
  = Completed (if paymentPasses draws "12345" then None else releaseFailure None) /\
  (validateAttempts (paymentMaximumAttempts - 1) 0 draws "12345" (in_OrderID input)).2
  = (if PaymentActivities.fiveDigits "12345"
     then if (draws 0%nat).1 then if (draws 1%nat).1 then 3 else 2 else 1
     else 1)%nat.
Proof.
  apply (payment_decides_the_order defaultConfig "run-1"
           (mkInput "O1" "FL123" "alice" ["A5"; "A6"]) t0 None t0 []
           (fun n : nat => (bool_decide (n = 0%nat), "tx")) "12345" None).
  reflexivity.
Defined.

(** * Further properties of the facade *)

Lemma deliversTo_none (env : Env) (orderID : string) (db : DB) (signalErr : option error)
    (reply : Reply) :
  statusCode reply = 400 \/ statusCode reply = 404 ->
  deliversTo env orderID db signalErr (reply, []).
Proof.
  intros Hcode. unfold deliversTo. simpl. split_and!.
  - lia.
  - intros s Hs. by apply elem_of_nil in Hs.
  - split; [|by intros [? _]]. intros H200. destruct Hcode as [H|H]; rewrite H in H200; done.
  - done.
Qed.

Lemma deliversTo_one (env : Env) (orderID : string) (db : DB) (signalErr : option error)
    (reply : Reply) (order : OrderRow) (sig : Signal) :
  GetOrder env orderID db = inr order ->
  (statusCode reply = 200 <-> signalErr = None) ->
  deliversTo env orderID db signalErr
    (reply, [mkSent (workflow_id order) (run_id order) sig]).
Proof.
  intros Hget Hcode. unfold deliversTo. simpl. split_and!.
  - lia.
  - intros s ->%list_elem_of_singleton. by exists order.
  - rewrite Hcode. split; [done|by intros [_ ?]].
  - done.
Qed.

(** The three handlers that signal a workflow (seat update, payment,
    cancellation) send at most one signal, and only to the workflow and run
    recorded in the order row; they reply 200 exactly when the signal was
    sent and accepted, and 400 or 404 when none was sent.  A seat update is
    never signalled with an empty list, and a payment code that is signalled
    is 5 bytes long. *)
Theorem handlers_signal_the_stored_run (env : Env) (signalErr : option error)
    (orderID : string) (db : DB) :
  (forall body,
     deliversTo env orderID db signalErr (Handler.UpdateSeats env body signalErr orderID db) /\
     forall s, s ∈ (Handler.UpdateSeats env body signalErr orderID db).2 ->
       exists newSeats, body = inr newSeats /\ newSeats <> [] /\
                        signal s = SignalUpdateSeats newSeats) /\
  (forall body,
     deliversTo env orderID db signalErr (SubmitPayment env body signalErr orderID db) /\
     forall s, s ∈ (SubmitPayment env body signalErr orderID db).2 ->
       exists code, body = inr code /\ String.length code = 5%nat /\
                    signal s = SignalSubmitPayment code) /\
  deliversTo env orderID db signalErr (Handler.CancelOrder env signalErr orderID db) /\
  (forall s, s ∈ (Handler.CancelOrder env signalErr orderID db).2 ->
     signal s = SignalCancelOrder).
Proof.
  split_and!.
  - intros [err|newSeats]; unfold Handler.UpdateSeats.
    { split; [apply deliversTo_none; by left|]. by intros ? ?%elem_of_nil. }
    case_bool_decide as Hlen.
    { split; [apply deliversTo_none; by left|]. by intros ? ?%elem_of_nil. }
    destruct (GetOrder env orderID db) as [e|order] eqn:Hget.
    { split; [apply deliversTo_none; by right|]. by intros ? ?%elem_of_nil. }
    assert (newSeats <> []) as Hne by (by intros ->).
    destruct signalErr as [e|].
    + split; [by apply deliversTo_one|].
      intros s ->%list_elem_of_singleton. by exists newSeats.
    + split; [by apply deliversTo_one|].
      intros s ->%list_elem_of_singleton. by exists newSeats.
  - intros [err|code]; unfold SubmitPayment.
    { split; [apply deliversTo_none; by left|]. by intros ? ?%elem_of_nil. }
    case_bool_decide as Hlen.
    { split; [apply deliversTo_none; by left|]. by intros ? ?%elem_of_nil. }
    destruct (GetOrder env orderID db) as [e|order] eqn:Hget.
    { split; [apply deliversTo_none; by right|]. by intros ? ?%elem_of_nil. }
    assert (String.length code = 5%nat) as Hfive
      by (destruct (decide (String.length code = 5%nat)); [done|by destruct Hlen]).
    destruct signalErr as [e|].
    + split; [by apply deliversTo_one|].
      intros s ->%list_elem_of_singleton. by exists code.
    + split; [by apply deliversTo_one|].
      intros s ->%list_elem_of_singleton. by exists code.
  - unfold Handler.CancelOrder.
    destruct (GetOrder env orderID db) as [e|order] eqn:Hget.
    { apply deliversTo_none. by right. }
    destruct signalErr as [e|]; by apply deliversTo_one.
  - unfold Handler.CancelOrder.
    destruct (GetOrder env orderID db) as [e|order].
    { by intros ? ?%elem_of_nil. }
    destruct signalErr; by intros s ->%list_elem_of_singleton.
Qed.

Lemma CreateOrder_committed (env : Env) (order : OrderRow) (db db' : DB) :
  CreateOrder env order db = (Returned None, db') ->
  seats db' = seats db /\
  forall env', exec_fails (faults env') = false ->
    GetOrder env' (order_id order) db'
    = inr (mkOrder (order_id order) (o_flight_id order) (o_user_id order) (o_status order)
                   (workflow_id order) (run_id order) (sqlNow env)).
Proof.
  unfold CreateOrder. destruct (exec_fails (faults env)); [done|].
  case_bool_decide as Hin; [done|]. intros H. simplify_eq. split; [done|].
  intros env' Hexec.
  assert (Hnone : filter (fun o => order_id o = order_id order) (orders db) = []).
  { destruct (filter (fun o => order_id o = order_id order) (orders db))
      as [|o os] eqn:Hfil; [done|]. destruct Hin.
    assert (o ∈ filter (fun o0 => order_id o0 = order_id order) (orders db)) as Ho
      by (rewrite Hfil; apply elem_of_cons; by left).
    apply list_elem_of_filter in Ho as [<- Ho]. apply list_elem_of_fmap. eauto. }
  rewrite GetOrder_orderRow by done. unfold orderRow. simpl.
  rewrite filter_app, Hnone. simpl. rewrite filter_cons. simpl.
  by rewrite decide_True.
Qed.

Lemma CreateOrder_failed (env : Env) (order : OrderRow) (db db' : DB) (o : Outcome) :
  CreateOrder env order db = (o, db') -> o <> Returned None -> db' = db.
Proof.
  unfold CreateOrder. intros H Ho. repeat case_match; by simplify_eq.
Qed.

(** Creating an order.  ExecuteWorkflow is called at most once, and only for
    a request with a user id and at least one seat, with the fresh order id
    as workflow id and in the input.  A 201 reply means the workflow was
    started and the order row stored: status CREATED, with the workflow id
    and run id of the started run, found by GetOrder; the seat table is not
    touched by the handler.  An error reply leaves the tables as they were,
    and is 400 exactly when ExecuteWorkflow was not called: a 500 that follows
    a successful start leaves a running workflow without an order row. *)
Theorem CreateOrder_handler_result (env : Env) (body : error + CreateOrderRequest)
    (orderID : string) (start : error + string * string) (flightID : string) (db : DB) :
  let reply := (Handler.CreateOrder env body orderID start flightID db).1.1 in
  let started := (Handler.CreateOrder env body orderID start flightID db).1.2 in
  let db' := (Handler.CreateOrder env body orderID start flightID db).2 in
  (forall s, s ∈ started ->
     started = [s] /\ started_ID s = orderID /\
     exists req, body = inr req /\ req_UserID req <> "" /\ req_Seats req <> [] /\
       started_input s = mkInput orderID flightID (req_UserID req) (req_Seats req)) /\
  (forall resp, reply = create_Created resp ->
     exists req workflowID runID,
       body = inr req /\ start = inr (workflowID, runID) /\ started <> [] /\
       resp = mkCreateResponse orderID flightID (req_UserID req) (req_Seats req)
                               StatusCreated workflowID /\
       seats db' = seats db /\
       forall env', exec_fails (faults env') = false ->
         GetOrder env' orderID db'
         = inr (mkOrder orderID flightID (req_UserID req) StatusCreated
                        workflowID runID (sqlNow env))) /\
  (forall msg code, reply = create_Error msg code ->
     db' = db /\ (code = 400 \/ code = 500) /\ (code = 400 <-> started = [])).
Proof.
  cbv zeta. unfold Handler.CreateOrder.
  destruct body as [err|req].
  { simpl. split_and!; [by intros ? ?%elem_of_nil|done|].
    intros msg code H. simplify_eq. split_and!; [done|by left|done]. }
  destruct (bool_decide (req_UserID req = "") || bool_decide (length (req_Seats req) = 0%nat))
    eqn:Hvalid.
  { simpl. split_and!; [by intros ? ?%elem_of_nil|done|].
    intros msg code H. simplify_eq. split_and!; [done|by left|done]. }
  apply orb_false_iff in Hvalid as [Huser Hseats].
  apply bool_decide_eq_false in Huser, Hseats.
  assert (req_Seats req <> []) as Hne by (intros Heq; by rewrite Heq in Hseats).
  assert (Hstarted : forall s,
            s ∈ [mkStarted orderID (mkInput orderID flightID (req_UserID req) (req_Seats req))] ->
            [mkStarted orderID (mkInput orderID flightID (req_UserID req) (req_Seats req))] = [s] /\
            started_ID s = orderID /\
            exists req0, @inr error _ req = inr req0 /\ req_UserID req0 <> "" /\
              req_Seats req0 <> [] /\
              started_input s = mkInput orderID flightID (req_UserID req0) (req_Seats req0)).
  { intros s ->%list_elem_of_singleton. split_and!; try done. by exists req. }
  destruct start as [err|[workflowID runID]].
  { simpl. split_and!; [done|done|].
    intros msg code H. simplify_eq. split_and!; [done|by right|done]. }
  destruct (CreateOrder env _ db) as [out db'] eqn:Hcreate.
  destruct out as [[e|]|msg0]; simpl.
  - split_and!; [done|done|]. intros msg code H. simplify_eq.
    split_and!; [by eapply CreateOrder_failed|by right|done].
  - split_and!; [done| |done]. intros resp H. simplify_eq.
    exists req, workflowID, runID. split_and!; try done.
    + by apply CreateOrder_committed in Hcreate as [? _].
    + intros env' Hexec. apply CreateOrder_committed in Hcreate as [_ Hget].
      by apply Hget.
  - split_and!; [done|done|]. intros msg code H. simplify_eq.
    split_and!; [by eapply CreateOrder_failed|by right|done].
Qed.
